(** * ai-doc-helper: [generateContent] (src/utils/aiHelper.ts)

    A shallow embedding of the unified generation helper.  The function
    builds JavaScript objects, updates one of them through an alias
    (lines 55-60), hands the result to [fetch] or to the vendor SDK, and
    reads a field of the answer.  The embedding keeps that shape: objects
    the function allocates live in a heap and are reached through
    references; [fetch], the SDK and the engine's error texts are an
    environment; every outbound call is recorded in a trace. *)

From Stdlib Require Import Floats ZArith NArith Ascii String DecimalString.
From stdpp Require Import base list strings.

Local Open Scope string_scope.

(** ** Values *)

(** Data that this function only reads or passes on (the caller's schema,
    the parsed response) is an immutable JSON tree.  A number is an IEEE
    double, as in JavaScript. *)
#[warnings="-register-all"]
Inductive Json : Type :=
| JNull
| JBool (b : bool)
| JNumber (f : float)
| JString (s : string)
| JArray (items : list Json)
| JObject (props : list (string * Json)).

Definition loc := nat.

(** A value is [undefined], JSON data, or a reference to an object that
    [generateContent] allocated itself. *)
Inductive val : Type :=
| VUndefined
| VJson (j : Json)
| VRef (l : loc).

Definition VStr (s : string) : val := VJson (JString s).
Definition VBoolean (b : bool) : val := VJson (JBool b).

(** Heap objects: plain objects keep their properties in insertion order. *)
Inductive obj : Type :=
| OObject (props : list (string * val))
| OArray (elems : list val).

(** An optional string field of the request: absent is [undefined]. *)
Definition optional (o : option string) : val :=
  match o with
  | Some s => VStr s
  | None => VUndefined
  end.

Definition optional_any (o : option Json) : val :=
  match o with
  | Some j => VJson j
  | None => VUndefined
  end.

(** ToBoolean of a number: [0], [-0] and [NaN] are falsy. *)
Definition number_truthy (f : float) : bool :=
  negb (PrimFloat.eqb f 0%float || PrimFloat.is_nan f).

(** ToBoolean, the test behind [if (x)], [!x] and [x || y]. *)
Definition truthy (v : val) : bool :=
  match v with
  | VUndefined => false
  | VJson JNull => false
  | VJson (JBool b) => b
  | VJson (JNumber f) => number_truthy f
  | VJson (JString "") => false
  | VJson (JString _) => true
  | VJson (JArray _) => true
  | VJson (JObject _) => true
  | VRef _ => true
  end.

(** The test of [?.]: the receiver is [null] or [undefined]. *)
Definition nullish (v : val) : bool :=
  match v with
  | VUndefined | VJson JNull => true
  | _ => false
  end.

(** ToString of a [string | undefined] inside a template literal. *)
Definition template (o : option string) : string :=
  match o with
  | Some s => s
  | None => "undefined"
  end.

(** ToString of a non-negative integer inside a template literal. *)
Definition decimal (n : N) : string := NilZero.string_of_uint (N.to_uint n).

(** [a || d] for a [string | undefined] and a string default. *)
Definition or_default (o : option string) (d : string) : string :=
  match o with
  | Some s => if truthy (VStr s) then s else d
  | None => d
  end.

Fixpoint assoc {A : Type} (k : string) (props : list (string * A)) : option A :=
  match props with
  | [] => None
  | (k', v) :: rest => if String.eqb k k' then Some v else assoc k rest
  end.

(** Assignment to a property: an existing key keeps its place, a new one
    goes last. *)
Fixpoint assign {A : Type} (k : string) (v : A) (props : list (string * A))
  : list (string * A) :=
  match props with
  | [] => [(k, v)]
  | (k', v') :: rest =>
      if String.eqb k k' then (k, v) :: rest else (k', v') :: assign k v rest
  end.

(** ** Errors *)

(** A TypeError raised by the engine itself; its text is the engine's. *)
Inductive TypeErrorKind : Type :=
| ReadOfNullish (receiver : val) (prop : string)
| WriteOfNullish (receiver : val) (prop : string)
| CircularStructure.

(** What can be thrown: an [Error] object with a message (from this code,
    from [fetch], from a body reader or from the SDK), or an engine
    TypeError. *)
Inductive JsError : Type :=
| Error (message : string)
| EngineTypeError (k : TypeErrorKind).

(** ** The outside world *)

Record RequestInit := {
  method : string;
  headers : list (string * string);
  body : option Json;   (* the JSON text given as [body], as the tree it denotes *)
}.

(** A [Response] as this code uses it: two fields and two body readers. *)
Record Response := {
  ok : bool;
  status : N;
  text : JsError + string;
  json : JsError + Json;
}.

Record GenerateContentResponse := {
  response_text : option string;   (* the [text] accessor: string | undefined *)
}.

Record Env := {
  fetch : string -> RequestInit -> JsError + Response;
  sdk_generateContent : string -> Json -> JsError + GenerateContentResponse;
  type_error_message : TypeErrorKind -> string;
}.

(** [e.message] *)
Definition message_of (env : Env) (e : JsError) : string :=
  match e with
  | Error m => m
  | EngineTypeError k => type_error_message env k
  end.

Inductive event : Type :=
| EvFetch (url : string) (init : RequestInit)
| EvGenerate (key : string) (params : Json)
| EvConsoleError (label : string) (e : JsError).

Record world := {
  heap : list obj;
  trace : list event;
}.

Definition initial : world := {| heap := []; trace := [] |}.

(** ** The monad: state, exceptions, and a way out of the modelled fragment *)

Inductive outcome (A : Type) : Type :=
| Normal (a : A)
| Throw (e : JsError)
| Unmodelled.
Arguments Normal {A} a.
Arguments Throw {A} e.
Arguments Unmodelled {A}.

Definition M (A : Type) : Type := world -> outcome A * world.

#[global] Instance M_ret : MRet M := fun A a w => (Normal a, w).

#[global] Instance M_bind : MBind M := fun A B k m w =>
  match m w with
  | (Normal a, w') => k a w'
  | (Throw e, w') => (Throw e, w')
  | (Unmodelled, w') => (Unmodelled, w')
  end.

Definition throw {A : Type} (e : JsError) : M A := fun w => (Throw e, w).
Definition unmodelled {A : Type} : M A := fun w => (Unmodelled, w).

(** [try { m } catch (e) { handler e }] *)
Definition try_catch {A : Type} (m : M A) (handler : JsError -> M A) : M A :=
  fun w =>
    match m w with
    | (Throw e, w') => handler e w'
    | r => r
    end.

Definition emit (ev : event) : M unit :=
  fun w => (Normal (), {| heap := heap w; trace := trace w ++ [ev] |}).

Definition when (b : bool) (m : M unit) : M unit := if b then m else mret ().

(** A value awaited from the environment. *)
Definition await {A : Type} (r : JsError + A) : M A :=
  match r with
  | inl e => throw e
  | inr a => mret a
  end.

(** ** Heap operations *)

Definition alloc (o : obj) : M val :=
  fun w => (Normal (VRef (length (heap w))),
            {| heap := heap w ++ [o]; trace := trace w |}).

Definition new_object (props : list (string * val)) : M val := alloc (OObject props).
Definition new_array (elems : list val) : M val := alloc (OArray elems).

Definition load (l : loc) : M obj :=
  fun w => match heap w !! l with
           | Some o => (Normal o, w)
           | None => (Unmodelled, w)
           end.

Definition store (l : loc) (o : obj) : M unit :=
  fun w => (Normal (), {| heap := <[l := o]> (heap w); trace := trace w |}).

(** [arr.push(v)] *)
Definition push (arr : val) (v : val) : M unit :=
  match arr with
  | VRef l =>
      o ← load l;
      match o with
      | OArray elems => store l (OArray (elems ++ [v]))
      | OObject _ => unmodelled
      end
  | _ => unmodelled
  end.

(** [arr.length] of an array *)
Definition array_length (arr : val) : M Z :=
  match arr with
  | VRef l =>
      o ← load l;
      match o with
      | OArray elems => mret (Z.of_nat (length elems))
      | OObject _ => unmodelled
      end
  | VJson (JArray items) => mret (Z.of_nat (length items))
  | _ => unmodelled
  end.

(** [v.k] for a property name [k] that no prototype defines and that is
    neither an index nor [length] (here: content, text, choices, message).
    Reading a property of [null] or [undefined] throws. *)
Definition get_field (v : val) (k : string) : M val :=
  match v with
  | VUndefined | VJson JNull => throw (EngineTypeError (ReadOfNullish v k))
  | VJson (JObject props) => mret (optional_any (assoc k props))
  | VJson _ => mret VUndefined
  | VRef l =>
      o ← load l;
      match o with
      | OObject props => mret (default VUndefined (assoc k props))
      | OArray _ => mret VUndefined
      end
  end.

Definition index_key (i : Z) : string :=
  match i with
  | Zneg p => "-" +:+ decimal (Npos p)
  | _ => decimal (Z.to_N i)
  end.

Definition char_at (s : string) (i : Z) : val :=
  if (i <? 0)%Z then VUndefined
  else match String.get (Z.to_nat i) s with
       | Some c => VStr (String c "")
       | None => VUndefined
       end.

Definition nth_val {A : Type} (inj : A -> val) (xs : list A) (i : Z) : val :=
  if (i <? 0)%Z then VUndefined
  else match xs !! Z.to_nat i with
       | Some x => inj x
       | None => VUndefined
       end.

(** [v[i]] for an integer [i]. *)
Definition get_index (v : val) (i : Z) : M val :=
  match v with
  | VUndefined | VJson JNull => throw (EngineTypeError (ReadOfNullish v (index_key i)))
  | VJson (JArray items) => mret (nth_val VJson items i)
  | VJson (JObject props) => mret (optional_any (assoc (index_key i) props))
  | VJson (JString s) => mret (char_at s i)
  | VJson _ => mret VUndefined
  | VRef l =>
      o ← load l;
      match o with
      | OArray elems => mret (nth_val id elems i)
      | OObject props => mret (default VUndefined (assoc (index_key i) props))
      end
  end.

(** [v.k = x] *)
Definition set_field (v : val) (k : string) (x : val) : M unit :=
  match v with
  | VUndefined | VJson JNull => throw (EngineTypeError (WriteOfNullish v k))
  | VJson _ => unmodelled
  | VRef l =>
      o ← load l;
      match o with
      | OObject props => store l (OObject (assign k x props))
      | OArray _ => unmodelled
      end
  end.

(** [typeof v === 'string'] *)
Definition is_string (v : val) : bool :=
  match v with
  | VJson (JString _) => true
  | _ => false
  end.

(** [Array.isArray(v)] *)
Definition is_array (v : val) : M bool :=
  match v with
  | VRef l =>
      o ← load l;
      match o with
      | OArray _ => mret true
      | OObject _ => mret false
      end
  | VJson (JArray _) => mret true
  | _ => mret false
  end.

(** [v + s] for a string [s], where [v] is a primitive without a number
    in it; other operands leave the modelled fragment. *)
Definition concat (v : val) (s : string) : M val :=
  match v with
  | VJson (JString t) => mret (VStr (t +:+ s))
  | VUndefined => mret (VStr ("undefined" +:+ s))
  | VJson JNull => mret (VStr ("null" +:+ s))
  | VJson (JBool true) => mret (VStr ("true" +:+ s))
  | VJson (JBool false) => mret (VStr ("false" +:+ s))
  | _ => unmodelled
  end.

(** ** Reading an object graph *)

Definition sequence {A : Type} (xs : list (option A)) : option (list A) :=
  foldr (fun x acc => match x, acc with
                      | Some a, Some l => Some (a :: l)
                      | _, _ => None
                      end) (Some []) xs.

(** The JSON tree of a value, as [JSON.stringify] walks it: properties
    holding [undefined] are left out, [undefined] array elements become
    [null].  The outer [None] is a walk that ran out of fuel; the inner
    [None] is [undefined]. *)
Fixpoint read_graph (fuel : nat) (h : list obj) (v : val) : option (option Json) :=
  match v with
  | VUndefined => Some None
  | VJson j => Some (Some j)
  | VRef l =>
      match fuel with
      | O => None
      | S fuel' =>
          match h !! l with
          | None => None
          | Some (OArray elems) =>
              items ← sequence (map (read_graph fuel' h) elems);
              Some (Some (JArray (map (default JNull) items)))
          | Some (OObject props) =>
              vals ← sequence (map (fun kv => read_graph fuel' h kv.2) props);
              Some (Some (JObject
                (omap (fun kj => match kj.2 with
                                 | Some j => Some (kj.1, j)
                                 | None => None
                                 end)
                      (zip (map fst props) vals))))
          end
      end
  end.

(** A walk longer than the heap has objects visits one of them twice, so
    the graph is cyclic and [JSON.stringify] throws. *)
Definition JSON_stringify (v : val) : M (option Json) :=
  fun w => match read_graph (S (length (heap w))) (heap w) v with
           | Some j => (Normal j, w)
           | None => (Throw (EngineTypeError CircularStructure), w)
           end.

(** ** Strings *)

Definition newline : string := String (Ascii.ascii_of_nat 10) "".

(** The text of lines 57 and 59. *)
Definition JSON_HINT : string :=
  newline +:+ newline +:+ "Please respond in valid JSON format.".

Definition CHAT_COMPLETIONS : string := "/chat/completions".

Fixpoint all_slashes (s : string) : bool :=
  match s with
  | "" => true
  | String c rest => Ascii.eqb c "/"%char && all_slashes rest
  end.

(** [s.replace(/\/+$/, '')]: the leftmost place from which one or more
    slashes run to the end of the string is where the match starts. *)
Fixpoint strip_trailing_slashes (s : string) : string :=
  match s with
  | "" => ""
  | String c rest =>
      if Ascii.eqb c "/"%char && all_slashes rest then ""
      else String c (strip_trailing_slashes rest)
  end.

(** [s.endsWith(x)] *)
Definition endsWith (s x : string) : bool :=
  let n := String.length s in
  let m := String.length x in
  (m <=? n)%nat && String.eqb (substring (n - m) m s) x.

(** Lines 65-68. *)
Definition make_endpoint (baseUrl : string) : string :=
  let cleanBaseUrl := strip_trailing_slashes baseUrl in
  if endsWith cleanBaseUrl CHAT_COMPLETIONS
  then cleanBaseUrl
  else cleanBaseUrl +:+ CHAT_COMPLETIONS.

(** ** The request *)

Record AIRequest := {
  apiKey : string;
  model : string;
  baseUrl : option string;
  prompt : string;
  systemInstruction : option string;
  image : option string;
  mimeType : option string;
  jsonSchema : option Json;   (* [any] *)
}.

(** ** [generateContent], block by block *)

(** Lines 25-43: the messages array. *)
Definition build_messages (req : AIRequest) (mimeType : string) : M val :=
  messages ← new_array [];
  when (truthy (optional (systemInstruction req)))
    (system ← new_object [("role", VStr "system");
                          ("content", optional (systemInstruction req))];
     push messages system);;
  text_part ← new_object [("type", VStr "text"); ("text", VStr (prompt req))];
  content ← new_array [text_part];
  when (truthy (optional (image req)))
    (image_url ← new_object
       [("url", VStr ("data:" +:+ mimeType +:+ ";base64," +:+ template (image req)))];
     image_part ← new_object [("type", VStr "image_url"); ("image_url", image_url)];
     push content image_part);;
  user ← new_object [("role", VStr "user"); ("content", content)];
  push messages user;;
  mret messages.

(** Which arm of lines 56-60 ran; the source does not return it. *)
Inductive hint_arm : Type := BareString | PartsSequence | NeitherForm.

(** Lines 55-60: the update goes through [lastMsg], an alias of the last
    element of [messages]. *)
Definition append_json_hint (messages : val) : M hint_arm :=
  len ← array_length messages;
  lastMsg ← get_index messages (len - 1);
  content ← get_field lastMsg "content";
  if is_string content then
    content' ← concat content JSON_HINT;
    set_field lastMsg "content" content';;
    mret BareString
  else
    isArray ← is_array content;
    if isArray : bool then
      first ← get_index content 0;
      text ← get_field first "text";
      text' ← concat text JSON_HINT;
      set_field first "text" text';;
      mret PartsSequence
    else mret NeitherForm.

(** Lines 45-61: the body, which holds [messages] by reference.  The arm
    of lines 56-60 that ran, if any, is handed back next to the body. *)
Definition build_body (req : AIRequest) (messages : val) : M (val * option hint_arm) :=
  body ← new_object [("model", VStr (model req));
                     ("messages", messages);
                     ("stream", VBoolean false)];
  arm ← (if truthy (optional_any (jsonSchema req)) then
           response_format ← new_object [("type", VStr "json_object")];
           set_field body "response_format" response_format;;
           arm ← append_json_hint messages;
           mret (Some arm)
         else mret None);
  mret (body, arm).

(** [data.choices?.[0]?.message?.content] (line 86): [?.] ends the whole
    chain with [undefined] when its receiver is nullish; the first access
    is a plain one. *)
Definition choices_0_message_content (data : val) : M val :=
  choices ← get_field data "choices";
  if nullish choices then mret VUndefined else
  first ← get_index choices 0;
  if nullish first then mret VUndefined else
  message ← get_field first "message";
  if nullish message then mret VUndefined else
  get_field message "content".

(** Lines 71-78: the second argument of [fetch]. *)
Definition request_init (req : AIRequest) (payload : option Json) : RequestInit :=
  {| method := "POST";
     headers := [("Content-Type", "application/json");
                 ("Authorization", "Bearer " +:+ apiKey req)];
     body := payload |}.

(** Lines 70-93. *)
Definition post_chat (env : Env) (req : AIRequest) (endpoint : string) (body : val)
  : M val :=
  try_catch
    (payload ← JSON_stringify body;
     let init := request_init req payload in
     emit (EvFetch endpoint init);;
     response ← await (fetch env endpoint init);
     (if negb (ok response) then
        errorText ← await (text response);
        throw (Error ("API Error " +:+ decimal (status response) +:+ ": " +:+ errorText))
      else mret ());;
     data ← await (json response);
     result ← choices_0_message_content (VJson data);
     if negb (truthy result) then throw (Error "No content in response")
     else mret result)
    (fun e =>
       emit (EvConsoleError "Compatible API Error:" e);;
       throw (Error ("AI Request Failed: " +:+ message_of env e))).

(** Lines 24-94: the OpenAI-compatible mode. *)
Definition compatible_mode (env : Env) (req : AIRequest) (mimeType baseUrl : string)
  : M val :=
  messages ← build_messages req mimeType;
  built ← build_body req messages;
  post_chat env req (make_endpoint baseUrl) built.1.

(** [ai.models.generateContent(params)]: the SDK reads the graph of its
    argument at the time of the call. *)
Definition models_generateContent (env : Env) (key : string) (params : val)
  : M GenerateContentResponse :=
  fun w =>
    match read_graph (S (length (heap w))) (heap w) params with
    | Some (Some j) =>
        (emit (EvGenerate key j);; await (sdk_generateContent env key j)) w
    | _ => (Unmodelled, w)
    end.

(** Lines 101-120: the parts, the configuration value and the argument of
    the SDK call. *)
Definition native_params (req : AIRequest) (mimeType : string) : M val :=
  parts ← new_array [];
  when (truthy (optional (image req)))
    (inlineData ← new_object [("mimeType", VStr mimeType);
                              ("data", optional (image req))];
     part ← new_object [("inlineData", inlineData)];
     push parts part);;
  text_part ← new_object [("text", VStr (prompt req))];
  push parts text_part;;
  config ← new_object [];
  when (truthy (optional (systemInstruction req)))
    (set_field config "systemInstruction" (optional (systemInstruction req)));;
  when (truthy (optional_any (jsonSchema req)))
    (set_field config "responseMimeType" (VStr "application/json");;
     set_field config "responseSchema" (optional_any (jsonSchema req)));;
  contents ← new_object [("parts", parts)];
  new_object [("model", VStr (model req));
              ("contents", contents);
              ("config", config)].

(** Lines 99-122: the native SDK mode.  The client of line 99 holds
    nothing but the key, which the call carries here. *)
Definition native_mode (env : Env) (req : AIRequest) (mimeType : string) : M val :=
  params ← native_params req mimeType;
  response ← models_generateContent env (apiKey req) params;
  mret (VStr (or_default (response_text response) "")).

Definition generateContent (env : Env) (req : AIRequest) : M val :=
  let mimeType := or_default (mimeType req) "image/png" in
  match baseUrl req with
  | Some url =>
      if truthy (VStr url) then compatible_mode env req mimeType url
      else native_mode env req mimeType
  | None => native_mode env req mimeType
  end.

(** A call from a fresh heap and an empty trace. *)
Definition run (env : Env) (req : AIRequest) : outcome val * world :=
  generateContent env req initial.

(** ** Observations *)

(** The two execution paths, read off the outbound calls of a run. *)
Inductive path : Type := PathA | PathB.

Definition outbound (ev : event) : option path :=
  match ev with
  | EvFetch _ _ => Some PathA
  | EvGenerate _ _ => Some PathB
  | EvConsoleError _ _ => None
  end.

Definition paths_taken (w : world) : list path := omap outbound (trace w).

Definition fetch_calls (w : world) : list (string * RequestInit) :=
  omap (fun ev => match ev with
                  | EvFetch url init => Some (url, init)
                  | _ => None
                  end) (trace w).

Definition sdk_calls (w : world) : list (string * Json) :=
  omap (fun ev => match ev with
                  | EvGenerate key params => Some (key, params)
                  | _ => None
                  end) (trace w).

(** Reading a JSON document: a member of an object, an element of an array. *)
Definition member (k : string) (j : Json) : option Json :=
  match j with
  | JObject props => assoc k props
  | _ => None
  end.

Definition elements (j : Json) : option (list Json) :=
  match j with
  | JArray items => Some items
  | _ => None
  end.

(** The bodies of the POSTs of a run, and the messages they carry. *)
Definition posted_bodies (w : world) : list Json :=
  omap (fun call => body call.2) (fetch_calls w).

Definition messages_of (body : Json) : option (list Json) :=
  member "messages" body ≫= elements.

(** The parts handed to the SDK and its configuration value. *)
Definition parts_of (params : Json) : option (list Json) :=
  contents ← member "contents" params;
  parts ← member "parts" contents;
  elements parts.

Definition config_of (params : Json) : option Json := member "config" params.

(** A field that is set and is not the empty string. *)
Definition nonempty (o : option string) : Prop :=
  exists s, o = Some s /\ s <> "".

(** [j[i]] on JSON data: an element of an array, a property of an object,
    a character of a string. *)
Definition element (i : nat) (j : Json) : option Json :=
  match j with
  | JArray items => items !! i
  | JObject props => assoc (decimal (N.of_nat i)) props
  | JString s => (fun c => JString (String c "")) <$> String.get i s
  | _ => None
  end.

(** The value at [choices[0].message.content] of a document, if any. *)
Definition content_at (data : Json) : option Json :=
  choices ← member "choices" data;
  first ← element 0 choices;
  message ← member "message" first;
  member "content" message.

(** What the try block of lines 70-89 leaves, given the answer of [fetch]:
    the value returned, or the error that reaches the catch clause. *)
Definition settle (answer : JsError + Response) : JsError + val :=
  match answer with
  | inl e => inl e
  | inr response =>
      if negb (ok response) then
        match text response with
        | inl e => inl e
        | inr errorText =>
            inl (Error ("API Error " +:+ decimal (status response)
                          +:+ ": " +:+ errorText))
        end
      else
        match json response with
        | inl e => inl e
        | inr JNull => inl (EngineTypeError (ReadOfNullish (VJson JNull) "choices"))
        | inr data =>
            let result := optional_any (content_at data) in
            if truthy result then inr result
            else inl (Error "No content in response")
        end
  end.

(** The state in which line 70 is reached: lines 25-61 run from a fresh heap. *)
Definition prepare (req : AIRequest) : outcome (val * option hint_arm) * world :=
  (messages ← build_messages req (or_default (mimeType req) "image/png");
   build_body req messages) initial.

(** The JSON text of the body at line 77. *)
Definition chat_payload (req : AIRequest) : option Json :=
  match prepare req with
  | (Normal (body, _), w) =>
      default None (read_graph (S (length (heap w))) (heap w) body)
  | _ => None
  end.

(** The argument of the SDK call at line 116, as the SDK reads it. *)
Definition sdk_params (req : AIRequest) : option Json :=
  match native_params req (or_default (mimeType req) "image/png") initial with
  | (Normal params, w) =>
      default None (read_graph (S (length (heap w))) (heap w) params)
  | _ => None
  end.

(** ** Words of the specification *)

(** [n] slashes. *)
Fixpoint slashes (n : nat) : string :=
  match n with
  | O => ""
  | S n' => String "/" (slashes n')
  end.

(** [s] ends with [x]. *)
Definition ends_with (s x : string) : Prop := exists p, s = p +:+ x.

(** [s.includes(sub)] *)
Fixpoint includes (s sub : string) : bool :=
  String.prefix sub s ||
  match s with
  | "" => false
  | String _ rest => includes rest sub
  end.

(** ** The payloads that the specification describes *)

(** The shapes of section 6 of the specification. *)
Definition chat_message (role : string) (content : Json) : Json :=
  JObject [("role", JString role); ("content", content)].

Definition chat_text_part (t : string) : Json :=
  JObject [("type", JString "text"); ("text", JString t)].

Definition image_url_part (url : string) : Json :=
  JObject [("type", JString "image_url");
           ("image_url", JObject [("url", JString url)])].

Definition inline_data_part (mime data : string) : Json :=
  JObject [("inlineData",
            JObject [("mimeType", JString mime); ("data", JString data)])].

Definition text_part (t : string) : Json := JObject [("text", JString t)].

Definition json_object_mode : Json := JObject [("type", JString "json_object")].

(** One item built from a string field that is set and non-empty. *)
Definition for_nonempty {A : Type} (o : option string) (f : string -> A) : list A :=
  match o with
  | Some (String a s) => [f (String a s)]
  | _ => []
  end.

(** Path A, steps 2, 3 and 5; a field counts when it is truthy. *)
Definition expected_messages (req : AIRequest) : list Json :=
  let mime := or_default (mimeType req) "image/png" in
  let wants_json := truthy (optional_any (jsonSchema req)) in
  for_nonempty (systemInstruction req) (fun s => chat_message "system" (JString s))
  ++ [chat_message "user"
        (JArray
           (chat_text_part (if wants_json then prompt req +:+ JSON_HINT
                            else prompt req)
            :: for_nonempty (image req)
                 (fun img => image_url_part
                               ("data:" +:+ mime +:+ ";base64," +:+ img))))].

Definition expected_body (req : AIRequest) : Json :=
  JObject
    ([("model", JString (model req));
      ("messages", JArray (expected_messages req));
      ("stream", JBool false)]
     ++ (if truthy (optional_any (jsonSchema req))
         then [("response_format", json_object_mode)]
         else [])).

(** Path B, steps 2 to 4. *)
Definition expected_parts (req : AIRequest) : list Json :=
  let mime := or_default (mimeType req) "image/png" in
  for_nonempty (image req) (fun img => inline_data_part mime img)
  ++ [text_part (prompt req)].

Definition expected_config (req : AIRequest) : Json :=
  JObject
    (for_nonempty (systemInstruction req)
       (fun s => ("systemInstruction", JString s))
     ++ match jsonSchema req with
        | Some schema =>
            if truthy (VJson schema)
            then [("responseMimeType", JString "application/json");
                  ("responseSchema", schema)]
            else []
        | None => []
        end).

Definition expected_params (req : AIRequest) : Json :=
  JObject [("model", JString (model req));
           ("contents", JObject [("parts", JArray (expected_parts req))]);
           ("config", expected_config req)].

(** The parts of the user message, which is the last message of a body. *)
Definition user_parts (body : Json) : option (list Json) :=
  messages ← messages_of body;
  user ← last messages;
  content ← member "content" user;
  elements content.

(** The data URIs of the image parts among the parts of a message. *)
Definition image_urls (parts : list Json) : list Json :=
  omap (fun part => image_url ← member "image_url" part;
                    member "url" image_url) parts.

(** The MIME types of the inline-data parts among the parts of an SDK call. *)
Definition inline_mime_types (parts : list Json) : list Json :=
  omap (fun part => inlineData ← member "inlineData" part;
                    member "mimeType" inlineData) parts.

(** ** Example environments and requests *)

(** The engine texts of V8. *)
Definition v8_message (k : TypeErrorKind) : string :=
  match k with
  | ReadOfNullish (VJson JNull) prop =>
      "Cannot read properties of null (reading '" +:+ prop +:+ "')"
  | ReadOfNullish _ prop =>
      "Cannot read properties of undefined (reading '" +:+ prop +:+ "')"
  | WriteOfNullish (VJson JNull) prop =>
      "Cannot set properties of null (setting '" +:+ prop +:+ "')"
  | WriteOfNullish _ prop =>
      "Cannot set properties of undefined (setting '" +:+ prop +:+ "')"
  | CircularStructure => "Converting circular structure to JSON"
  end.

(** A [Response] with the given status and body text; [ok] is the range
    200-299, and [json()] yields [parsed] (or fails when there is none). *)
Definition http_response (code : N) (raw : string) (parsed : option Json) : Response :=
  {| ok := (200 <=? code)%N && (code <=? 299)%N;
     status := code;
     text := inr raw;
     json := match parsed with
             | Some j => inr j
             | None => inl (Error "Unexpected token in JSON")
             end |}.

(** An environment whose endpoint always answers [response] and whose SDK
    always answers [generated]. *)
Definition answering (response : Response) (generated : GenerateContentResponse) : Env :=
  {| fetch := fun _ _ => inr response;
     sdk_generateContent := fun _ _ => inr generated;
     type_error_message := v8_message |}.

Definition no_text : GenerateContentResponse := {| response_text := None |}.

(** [{choices: [{message: {content: c}}]}] *)
Definition completion (c : Json) : Json :=
  JObject [("choices", JArray [JObject [("message", JObject [("content", c)])]])].

Definition plain_request (url : option string) : AIRequest :=
  {| apiKey := "sk-test"; model := "m"; baseUrl := url; prompt := "hi";
     systemInstruction := None; image := None; mimeType := None;
     jsonSchema := None |}.

(** The text of the first part of the user message of a body. *)
Definition last_user_text (body : Json) : option Json :=
  parts ← user_parts body;
  first ← head parts;
  member "text" first.

Definition with_schema (req : AIRequest) (schema : Json) : AIRequest :=
  {| apiKey := apiKey req; model := model req; baseUrl := baseUrl req;
     prompt := prompt req; systemInstruction := systemInstruction req;
     image := image req; mimeType := mimeType req; jsonSchema := Some schema |}.

Definition with_image (req : AIRequest) (img : string) : AIRequest :=
  {| apiKey := apiKey req; model := model req; baseUrl := baseUrl req;
     prompt := prompt req; systemInstruction := systemInstruction req;
     image := Some img; mimeType := mimeType req; jsonSchema := jsonSchema req |}.

Definition with_system (req : AIRequest) (sys : string) : AIRequest :=
  {| apiKey := apiKey req; model := model req; baseUrl := baseUrl req;
     prompt := prompt req; systemInstruction := Some sys;
     image := image req; mimeType := mimeType req; jsonSchema := jsonSchema req |}.

(** ** The claims that the code does not meet, as they are worded *)

(** C3 as worded: a schema that is present, whatever its value. *)
Definition C3_as_stated (env : Env) (req : AIRequest) : Prop :=
  nonempty (baseUrl req) -> jsonSchema req <> None ->
  exists body,
    posted_bodies (run env req).2 = [body] /\
    member "response_format" body = Some json_object_mode /\
    last_user_text body = Some (JString (prompt req +:+ JSON_HINT)).

(** C5 as the specification words it: the failure carries the bare message. *)
Definition C5_as_stated (env : Env) (req : AIRequest) : Prop :=
  forall url response data,
    baseUrl req = Some url -> url <> "" ->
    (forall init, fetch env (make_endpoint url) init = inr response) ->
    ok response = true ->
    json response = inr data ->
    (forall s, content_at data = Some (JString s) -> s <> "" ->
       (run env req).1 = Normal (VStr s)) /\
    (content_at data = None \/ content_at data = Some (JString "") ->
       (run env req).1 = Throw (Error "No content in response")).

(** C8 as worded: an image that is present, whatever its value. *)
Definition C8_as_stated (env : Env) (req : AIRequest) : Prop :=
  (baseUrl req = None \/ baseUrl req = Some "" ->
   exists params,
     sdk_calls (run env req).2 = [(apiKey req, params)] /\
     (forall img, image req = Some img ->
        parts_of params =
        Some [inline_data_part (or_default (mimeType req) "image/png") img;
              text_part (prompt req)]) /\
     (image req = None -> parts_of params = Some [text_part (prompt req)])) /\
  (nonempty (baseUrl req) ->
   exists body,
     posted_bodies (run env req).2 = [body] /\
     forall img, image req = Some img ->
       exists t url,
         user_parts body = Some [chat_text_part t; image_url_part url] /\
         (t = prompt req \/ t = prompt req +:+ JSON_HINT)).

(** C9 as worded: a system instruction and a schema that are present,
    whatever their values. *)
Definition C9_as_stated (env : Env) (req : AIRequest) : Prop :=
  baseUrl req = None \/ baseUrl req = Some "" ->
  exists params config parts,
    sdk_calls (run env req).2 = [(apiKey req, params)] /\
    config_of params = Some config /\
    parts_of params = Some parts /\
    (is_Some (member "systemInstruction" config) <->
     is_Some (systemInstruction req)) /\
    (forall schema, jsonSchema req = Some schema ->
       member "responseMimeType" config = Some (JString "application/json") /\
       member "responseSchema" config = Some schema) /\
    last parts = Some (text_part (prompt req)).

(** ** Further observations and examples *)

(** What [console.error] was called with, in order. *)
Definition console_errors (w : world) : list (string * JsError) :=
  omap (fun ev => match ev with
                  | EvConsoleError label e => Some (label, e)
                  | _ => None
                  end) (trace w).

(** An environment in which [fetch] and the SDK call both reject with [e]. *)
Definition rejecting (e : JsError) : Env :=
  {| fetch := fun _ _ => inl e;
     sdk_generateContent := fun _ _ => inl e;
     type_error_message := v8_message |}.

(** A [Response] whose body readers both fail with [e]. *)
Definition unreadable (code : N) (e : JsError) : Response :=
  {| ok := (200 <=? code)%N && (code <=? 299)%N;
     status := code;
     text := inl e;
     json := inl e |}.

Definition with_key (req : AIRequest) (key : string) : AIRequest :=
  {| apiKey := key; model := model req; baseUrl := baseUrl req;
     prompt := prompt req; systemInstruction := systemInstruction req;
     image := image req; mimeType := mimeType req; jsonSchema := jsonSchema req |}.

Definition with_mime (req : AIRequest) (mime : string) : AIRequest :=
  {| apiKey := apiKey req; model := model req; baseUrl := baseUrl req;
     prompt := prompt req; systemInstruction := systemInstruction req;
     image := image req; mimeType := Some mime; jsonSchema := jsonSchema req |}.

(** * Proofs *)

Ltac eval_js :=
  cbv -[number_truthy String.append make_endpoint decimal JSON_HINT
        CHAT_COMPLETIONS post_chat].

Ltac destruct_scrutinee :=
  match goal with
  | |- context [match ?x with _ => _ end] =>
      lazymatch x with
      | context [match _ with _ => _ end] => fail
      | _ => destruct x
      end
  end.

Ltac solve_js :=
  eval_js;
  repeat match goal with
         | H : number_truthy _ = _ |- _ => rewrite H; clear H; eval_js
         end;
  reflexivity.

(** Every shape of the three guarded fields of a request. *)
Ltac request_cases sys img schema :=
  destruct sys as [[|? ?]|], img as [[|? ?]|],
           schema as [[| [|] | ?f | [|? ?] | ? | ?]|];
  try (destruct (number_truthy f) eqn:?).

Lemma chain_spec data w :
  choices_0_message_content (VJson data) w =
  (match data with
   | JNull => Throw (EngineTypeError (ReadOfNullish (VJson JNull) "choices"))
   | _ => Normal (optional_any (content_at data))
   end, w).
Proof.
  destruct data; try reflexivity.
  repeat (cbv -[assoc lookup list_lookup String.get]; try reflexivity;
          destruct_scrutinee).
Qed.

Lemma post_chat_eq env req endpoint b w payload :
  read_graph (S (length (heap w))) (heap w) b = Some payload ->
  post_chat env req endpoint b w =
  let init := request_init req payload in
  let called := (trace w ++ [EvFetch endpoint init])%list in
  match settle (fetch env endpoint init) with
  | inr v => (Normal v, {| heap := heap w; trace := called |})
  | inl e =>
      (Throw (Error ("AI Request Failed: " +:+ message_of env e)),
       {| heap := heap w;
          trace := called ++ [EvConsoleError "Compatible API Error:" e] |})
  end.
Proof.
  intros Hread.
  unfold post_chat, try_catch, JSON_stringify, settle.
  cbv [mbind M_bind]. rewrite Hread. cbn [emit].
  destruct (fetch env endpoint (request_init req payload)) as [e|[o st tx js]];
    [reflexivity|].
  destruct o.
  - destruct js as [e|data]; [reflexivity|].
    cbv [mret M_ret await throw negb ok json].
    rewrite chain_spec.
    destruct data; try reflexivity;
      match goal with
      | |- context [truthy ?v] => destruct (truthy v); reflexivity
      end.
  - destruct tx as [e|errorText]; reflexivity.
Qed.

Lemma run_compatible env req url :
  baseUrl req = Some url -> url <> "" ->
  run env req =
  match prepare req with
  | (Normal (b, _), w) => post_chat env req (make_endpoint url) b w
  | (Throw e, w) => (Throw e, w)
  | (Unmodelled, w) => (Unmodelled, w)
  end.
Proof.
  intros Hurl Hne. unfold run, generateContent, prepare. rewrite Hurl.
  destruct url as [|a url]; [done|]. cbn [truthy VStr].
  unfold compatible_mode. cbv [mbind M_bind].
  destruct (build_messages req _ initial) as [[messages|e|] w]; [|done..].
  destruct (build_body req messages w) as [[[b arm]|e|] w']; done.
Qed.

Lemma prepare_ok req :
  exists b arm w payload,
    prepare req = (Normal (b, arm), w) /\ trace w = [] /\
    read_graph (S (length (heap w))) (heap w) b = Some (Some payload).
Proof.
  destruct req as [key mdl url prm sys img mime schema].
  request_cases sys img schema; do 4 eexists;
    (split; [solve_js|split; solve_js]).
Qed.

(** ** Strings *)

Lemma append_nil (t : string) : "" +:+ t = t.
Proof. reflexivity. Qed.

Lemma append_cons c (s t : string) : String c s +:+ t = String c (s +:+ t).
Proof. reflexivity. Qed.

Lemma append_empty_r s : s +:+ "" = s.
Proof. induction s as [|c s IH]; [done|]. by rewrite append_cons, IH. Qed.

Lemma append_assoc (a b c : string) : (a +:+ b) +:+ c = a +:+ (b +:+ c).
Proof. induction a as [|x a IH]; [done|]. by rewrite !append_cons, IH. Qed.

Lemma length_append (a b : string) :
  String.length (a +:+ b) = String.length a + String.length b.
Proof. induction a as [|x a IH]; [done|]. rewrite append_cons. cbn. by rewrite IH. Qed.

Lemma substring_full s : substring 0 (String.length s) s = s.
Proof. induction s as [|c s IH]; [done|]. cbn. by rewrite IH. Qed.

Lemma substring_after p x :
  substring (String.length p) (String.length x) (p +:+ x) = x.
Proof. induction p as [|c p IH]; [apply substring_full|done]. Qed.

Lemma substring_split s k :
  k <= String.length s ->
  s = substring 0 k s +:+ substring k (String.length s - k) s.
Proof.
  revert k. induction s as [|c s IH]; intros [|k] Hk; cbn in *; try done; try lia.
  - by rewrite substring_full.
  - rewrite append_cons. f_equal. apply IH. lia.
Qed.

Lemma endsWith_spec s x : endsWith s x = true <-> ends_with s x.
Proof.
  unfold endsWith, ends_with. rewrite andb_true_iff, Nat.leb_le, String.eqb_eq.
  split.
  - intros [Hle Hsub].
    exists (substring 0 (String.length s - String.length x) s).
    rewrite (substring_split s (String.length s - String.length x)) at 1 by lia.
    f_equal. rewrite <- Hsub at 3. f_equal. lia.
  - intros [p ->]. rewrite length_append. split; [lia|].
    replace (String.length p + String.length x - String.length x)
      with (String.length p) by lia.
    apply substring_after.
Qed.

Lemma all_slashes_spec s : all_slashes s = true -> s = slashes (String.length s).
Proof.
  induction s as [|c s IH]; [done|]. cbn. rewrite andb_true_iff.
  intros [Hc Hs]. apply Ascii.eqb_eq in Hc. subst c. f_equal. by apply IH.
Qed.

Lemma all_slashes_slashes n : all_slashes (slashes n) = true.
Proof. induction n as [|n IH]; [done|]. cbn. by rewrite IH. Qed.

(** The regular expression removes the whole run of slashes at the end,
    and nothing else. *)
Lemma strip_trailing_slashes_spec s :
  exists n,
    s = strip_trailing_slashes s +:+ slashes n /\
    ~ ends_with (strip_trailing_slashes s) "/".
Proof.
  induction s as [|c s (n & IHeq & IHend)].
  - exists 0. split; [done|]. intros [[|? ?] H]; discriminate.
  - cbn. destruct (Ascii.eqb c "/" && all_slashes s) eqn:Hrun.
    + apply andb_true_iff in Hrun as [Hc Hs]. apply Ascii.eqb_eq in Hc. subst c.
      exists (S (String.length s)). split.
      * rewrite append_nil. cbn. f_equal. by apply all_slashes_spec.
      * intros [[|? ?] H]; discriminate.
    + exists n. split; [rewrite append_cons; by rewrite <- IHeq|].
      intros [[|d p] H]; [rewrite append_nil in H|rewrite append_cons in H].
      * injection H as -> Hs. apply andb_false_iff in Hrun as [Hrun|Hrun]; [done|].
        rewrite IHeq, Hs, append_nil in Hrun.
        by rewrite all_slashes_slashes in Hrun.
      * injection H as _ Hs. apply IHend. by exists p.
Qed.

Lemma prefix_append x b : String.prefix x (x +:+ b) = true.
Proof.
  induction x as [|c x IH]; [by destruct b|].
  rewrite append_cons. cbn. destruct (ascii_dec c c); [apply IH|done].
Qed.

Lemma includes_middle a x b : includes (a +:+ x +:+ b) x = true.
Proof.
  induction a as [|c a IH].
  - rewrite append_nil. pose proof (prefix_append x b) as H.
    destruct (x +:+ b); cbn [includes]; by rewrite H.
  - rewrite append_cons. cbn. rewrite IH. apply orb_true_r.
Qed.

(** ** The two modes, as seen from outside *)

Lemma native_params_ok req :
  exists p w params,
    native_params req (or_default (mimeType req) "image/png") initial
      = (Normal p, w) /\
    trace w = [] /\
    read_graph (S (length (heap w))) (heap w) p = Some (Some params).
Proof.
  destruct req as [key mdl url prm sys img mime schema].
  request_cases sys img schema; do 3 eexists;
    (split; [solve_js|split; solve_js]).
Qed.

(** A request with a non-empty [baseUrl] makes one POST, and its outcome is
    what [settle] makes of the answer. *)
Lemma run_compatible_eq env req url :
  baseUrl req = Some url -> url <> "" ->
  exists payload h,
    chat_payload req = Some payload /\
    run env req =
    let init := request_init req (Some payload) in
    let call := EvFetch (make_endpoint url) init in
    match settle (fetch env (make_endpoint url) init) with
    | inr v => (Normal v, {| heap := h; trace := [call] |})
    | inl e =>
        (Throw (Error ("AI Request Failed: " +:+ message_of env e)),
         {| heap := h;
            trace := [call; EvConsoleError "Compatible API Error:" e] |})
    end.
Proof.
  intros Hurl Hne.
  destruct (prepare_ok req) as (b & arm & w & payload & Hp & Ht & Hr).
  exists payload, (heap w). split.
  - unfold chat_payload. by rewrite Hp, Hr.
  - rewrite (run_compatible env req url Hurl Hne), Hp.
    rewrite (post_chat_eq env req _ b w _ Hr), Ht. done.
Qed.

(** A request without one makes one SDK call and returns its text. *)
Lemma run_native_eq env req :
  baseUrl req = None \/ baseUrl req = Some "" ->
  exists params h,
    sdk_params req = Some params /\
    run env req =
    (match sdk_generateContent env (apiKey req) params with
     | inl e => Throw e
     | inr response => Normal (VStr (or_default (response_text response) ""))
     end,
     {| heap := h; trace := [EvGenerate (apiKey req) params] |}).
Proof.
  intros Hurl.
  destruct (native_params_ok req) as (p & w & params & Hp & Ht & Hr).
  exists params, (heap w). split.
  - unfold sdk_params. by rewrite Hp, Hr.
  - assert (run env req =
            native_mode env req (or_default (mimeType req) "image/png") initial)
      as -> by (unfold run, generateContent; by destruct Hurl as [-> | ->]).
    unfold native_mode. cbv [mbind M_bind]. rewrite Hp.
    unfold models_generateContent. rewrite Hr.
    cbv [emit mbind M_bind]. cbn [heap trace]. rewrite Ht.
    by destruct (sdk_generateContent env (apiKey req) params).
Qed.

Lemma baseUrl_cases req :
  nonempty (baseUrl req) \/ baseUrl req = None \/ baseUrl req = Some "".
Proof.
  destruct (baseUrl req) as [[|a url]|]; eauto.
  left. by eexists.
Qed.

Lemma nonempty_not_empty (o : option string) :
  nonempty o -> ~ (o = None \/ o = Some "").
Proof. intros (s & -> & Hs) [H|H]; congruence. Qed.

Lemma paths_compatible env req :
  nonempty (baseUrl req) -> paths_taken (run env req).2 = [PathA].
Proof.
  intros (url & Hurl & Hne).
  destruct (run_compatible_eq env req url Hurl Hne) as (payload & h & _ & ->).
  cbv zeta. by destruct (settle _).
Qed.

Lemma paths_native env req :
  baseUrl req = None \/ baseUrl req = Some "" ->
  paths_taken (run env req).2 = [PathB].
Proof.
  intros Hurl. by destruct (run_native_eq env req Hurl) as (params & h & _ & ->).
Qed.

(** ** C1 *)

(** C1. The compatible-endpoint path is taken exactly when [baseUrl] is set
    and non-empty; when it is absent or the empty string the only outbound
    call is the SDK call, and no POST is made. *)
Theorem C1_path_selection env req :
  (paths_taken (run env req).2 = [PathA] <-> nonempty (baseUrl req)) /\
  (paths_taken (run env req).2 = [PathB] <->
     baseUrl req = None \/ baseUrl req = Some "").
Proof.
  destruct (baseUrl_cases req) as [Hset|Hnot]; split; split; intros H; try done.
  - by apply paths_compatible.
  - by rewrite (paths_compatible env req Hset) in H.
  - by apply nonempty_not_empty in Hset.
  - by rewrite (paths_native env req Hnot) in H.
  - exfalso. by apply (nonempty_not_empty _ H).
  - by apply paths_native.
Qed.

(** ** C2 *)

Lemma endpoint_posted env req url :
  baseUrl req = Some url -> url <> "" ->
  (fetch_calls (run env req).2).*1 = [make_endpoint url].
Proof.
  intros Hurl Hne.
  destruct (run_compatible_eq env req url Hurl Hne) as (payload & h & _ & ->).
  cbv zeta. by destruct (settle _).
Qed.

(** C2. The URL of the POST is [baseUrl] without its trailing slashes when
    that already ends with /chat/completions, and with /chat/completions
    appended once otherwise; the two examples of the specification follow. *)
Theorem C2_endpoint env req :
  (forall url, baseUrl req = Some url -> url <> "" ->
     exists clean n endpoint,
       url = clean +:+ slashes n /\ ~ ends_with clean "/" /\
       (fetch_calls (run env req).2).*1 = [endpoint] /\
       (ends_with clean CHAT_COMPLETIONS -> endpoint = clean) /\
       (~ ends_with clean CHAT_COMPLETIONS ->
        endpoint = clean +:+ CHAT_COMPLETIONS)) /\
  (baseUrl req = Some "https://x.test/v1/" ->
     (fetch_calls (run env req).2).*1 = ["https://x.test/v1/chat/completions"]) /\
  (baseUrl req = Some "https://x.test/v1/chat/completions" ->
     (fetch_calls (run env req).2).*1 = ["https://x.test/v1/chat/completions"]).
Proof.
  split; [|split].
  - intros url Hurl Hne.
    destruct (strip_trailing_slashes_spec url) as (n & Heq & Hend).
    exists (strip_trailing_slashes url), n, (make_endpoint url).
    split; [done|]. split; [done|].
    split; [by apply endpoint_posted|].
    unfold make_endpoint.
    destruct (endsWith (strip_trailing_slashes url) CHAT_COMPLETIONS) eqn:E.
    + split; [done|]. intros H. by apply endsWith_spec in E.
    + split; [|done]. intros H. apply endsWith_spec in H. congruence.
  - intros Hurl. by rewrite (endpoint_posted env req _ Hurl).
  - intros Hurl. by rewrite (endpoint_posted env req _ Hurl).
Qed.

(** ** C4 *)

(** C4. When the endpoint answers with a non-success status, the call fails
    with an error whose message holds the status code and the body text. *)
Theorem C4_http_failure env req url response errorText :
  baseUrl req = Some url -> url <> "" ->
  (forall init, fetch env (make_endpoint url) init = inr response) ->
  ok response = false ->
  text response = inr errorText ->
  exists msg,
    (run env req).1 = Throw (Error msg) /\
    msg = "AI Request Failed: API Error " +:+ decimal (status response)
            +:+ ": " +:+ errorText /\
    includes msg (decimal (status response)) = true /\
    includes msg errorText = true.
Proof.
  intros Hurl Hne Hfetch Hok Htext.
  destruct (run_compatible_eq env req url Hurl Hne) as (payload & h & _ & ->).
  cbv zeta. rewrite Hfetch. unfold settle. rewrite Hok, Htext. cbn [negb fst message_of].
  eexists. split; [reflexivity|]. split; [reflexivity|]. split.
  - apply (includes_middle "AI Request Failed: API Error ").
  - pose proof (includes_middle
                  ("AI Request Failed: " +:+ "API Error "
                     +:+ decimal (status response) +:+ ": ")
                  errorText "") as H.
    by rewrite append_empty_r, !append_assoc in H.
Qed.

(** HTTP 500 with body [server error]. *)
Lemma C4_http_failure_witness :
  exists msg,
    (run (answering (http_response 500 "server error" None) no_text)
         (plain_request (Some "https://x.test/v1"))).1 = Throw (Error msg) /\
    msg = "AI Request Failed: API Error 500: server error" /\
    includes msg "500" = true /\
    includes msg "server error" = true.
Proof.
  apply (C4_http_failure
           (answering (http_response 500 "server error" None) no_text)
           (plain_request (Some "https://x.test/v1"))
           "https://x.test/v1"
           (http_response 500 "server error" None) "server error");
    [reflexivity | discriminate | reflexivity | reflexivity | reflexivity].
Defined.

(** ** C5 *)

(** What an answer of the endpoint leads to. *)
Lemma run_answered env req url response :
  baseUrl req = Some url -> url <> "" ->
  (forall init, fetch env (make_endpoint url) init = inr response) ->
  (run env req).1 =
  match settle (inr response) with
  | inr v => Normal v
  | inl e => Throw (Error ("AI Request Failed: " +:+ message_of env e))
  end.
Proof.
  intros Hurl Hne Hfetch.
  destruct (run_compatible_eq env req url Hurl Hne) as (payload & h & _ & ->).
  cbv zeta. rewrite Hfetch. by destruct (settle _).
Qed.

(** An answer without choices: the catch clause of line 92 rewraps the error
    of line 88, so the message is not the bare one.  And a document that is
    [null] does not reach line 88 at all. *)
Lemma C5_counterexample :
  ~ C5_as_stated (answering (http_response 200 "{}" (Some (JObject []))) no_text)
                 (plain_request (Some "https://x.test/v1")) /\
  (run (answering (http_response 200 "null" (Some JNull)) no_text)
       (plain_request (Some "https://x.test/v1"))).1 =
  Throw (Error
    "AI Request Failed: Cannot read properties of null (reading 'choices')").
Proof.
  split; [|reflexivity].
  intros H.
  destruct (H "https://x.test/v1" (http_response 200 "{}" (Some (JObject [])))
              (JObject [])) as [_ Habsent]; try done.
  specialize (Habsent (or_introl eq_refl)). vm_compute in Habsent. discriminate.
Qed.

(** C5, amended. On a successful answer whose document is not [null], the
    call returns the string at choices[0].message.content when that is a
    non-empty string, and fails with the message
    [AI Request Failed: No content in response] when it is absent or empty. *)
Theorem C5_content env req url response data :
  baseUrl req = Some url -> url <> "" ->
  (forall init, fetch env (make_endpoint url) init = inr response) ->
  ok response = true ->
  json response = inr data ->
  data <> JNull ->
  (forall s, content_at data = Some (JString s) -> s <> "" ->
     (run env req).1 = Normal (VStr s)) /\
  (content_at data = None \/ content_at data = Some (JString "") ->
     (run env req).1 =
     Throw (Error "AI Request Failed: No content in response")).
Proof.
  intros Hurl Hne Hfetch Hok Hjson Hnull.
  rewrite (run_answered env req url response) by done.
  unfold settle. rewrite Hok, Hjson. cbn [negb].
  split.
  - intros s Hs Hs'. rewrite Hs. destruct data; try done; by destruct s.
  - intros [H|H]; rewrite H; by destruct data.
Qed.

(** The answer [{choices: [{message: {content: hello}}]}] resolves to hello. *)
Lemma C5_content_witness :
  (run (answering (http_response 200 "" (Some (completion (JString "hello")))) no_text)
       (plain_request (Some "https://x.test/v1"))).1 = Normal (VStr "hello").
Proof.
  refine (proj1 (C5_content
           (answering (http_response 200 "" (Some (completion (JString "hello")))) no_text)
           (plain_request (Some "https://x.test/v1"))
           "https://x.test/v1"
           (http_response 200 "" (Some (completion (JString "hello"))))
           (completion (JString "hello")) _ _ _ _ _ _) "hello" _ _);
    first [reflexivity | discriminate].
Defined.

(** ** C6 *)

(** C6. The native path returns the text of the SDK response, and the empty
    string when that is absent; the compatible path, given a document in
    which the content is absent or empty, fails instead. *)
Theorem C6_native_text env req generated :
  baseUrl req = None \/ baseUrl req = Some "" ->
  (forall params, sdk_generateContent env (apiKey req) params = inr generated) ->
  (run env req).1 = Normal (VStr (default "" (response_text generated))) /\
  (response_text generated = None -> (run env req).1 = Normal (VStr "")) /\
  (forall req' url response data,
     baseUrl req' = Some url -> url <> "" ->
     (forall init, fetch env (make_endpoint url) init = inr response) ->
     ok response = true ->
     json response = inr data ->
     content_at data = None \/ content_at data = Some (JString "") ->
     exists msg, (run env req').1 = Throw (Error msg)).
Proof.
  intros Hurl Hsdk.
  destruct (run_native_eq env req Hurl) as (params & h & _ & Hrun).
  rewrite Hrun, Hsdk. cbn [fst].
  split; [by destruct (response_text generated) as [[|? ?]|]|].
  split; [by intros ->|].
  intros req' url response data Hurl' Hne Hfetch Hok Hjson Hcontent.
  rewrite (run_answered env req' url response) by done.
  unfold settle. rewrite Hok, Hjson. cbn [negb].
  destruct data; try by eexists.
  all: destruct Hcontent as [-> | ->]; by eexists.
Qed.

(** An SDK response without text resolves to the empty string. *)
Lemma C6_native_text_witness :
  (run (answering (http_response 200 "" None) no_text) (plain_request None)).1
  = Normal (VStr "").
Proof.
  refine (proj1 (C6_native_text
           (answering (http_response 200 "" None) no_text)
           (plain_request None) no_text _ _));
    [by left | reflexivity].
Defined.

(** ** The payloads *)

(** Lines 25-61 build, and line 77 serialises, the body of the
    specification; the update of lines 55-60 is in it because the body
    holds the messages by reference. *)
Lemma chat_payload_expected req : chat_payload req = Some (expected_body req).
Proof.
  destruct req as [key mdl url prm sys img mime schema].
  request_cases sys img schema; solve_js.
Qed.

Lemma sdk_params_expected req : sdk_params req = Some (expected_params req).
Proof.
  destruct req as [key mdl url prm sys img mime schema].
  request_cases sys img schema; solve_js.
Qed.

Lemma posted_expected env req :
  nonempty (baseUrl req) ->
  posted_bodies (run env req).2 = [expected_body req].
Proof.
  intros (url & Hurl & Hne).
  destruct (run_compatible_eq env req url Hurl Hne) as (payload & h & Hp & ->).
  rewrite chat_payload_expected in Hp. injection Hp as <-.
  cbv zeta. by destruct (settle _).
Qed.

Lemma generated_expected env req :
  baseUrl req = None \/ baseUrl req = Some "" ->
  sdk_calls (run env req).2 = [(apiKey req, expected_params req)].
Proof.
  intros Hurl.
  destruct (run_native_eq env req Hurl) as (params & h & Hp & ->).
  rewrite sdk_params_expected in Hp. by injection Hp as <-.
Qed.

(** ** Lines 55-60 on an arbitrary heap *)

Lemma nth_val_last {A : Type} (inj : A -> val) (xs : list A) (x : A) :
  last xs = Some x ->
  nth_val inj xs (Z.of_nat (length xs) - 1) = inj x.
Proof.
  intros Hlast. unfold nth_val.
  assert (length xs <> 0) by (by destruct xs).
  destruct (Z.ltb_spec (Z.of_nat (length xs) - 1) 0) as [Hneg|_]; [lia|].
  replace (Z.to_nat (Z.of_nat (length xs) - 1)) with (pred (length xs)) by lia.
  by rewrite <- last_lookup, Hlast.
Qed.

Ltac heap_steps :=
  repeat first
    [ match goal with
      | H : _ !! _ = Some _ |- _ => rewrite H
      | H : assoc _ _ = Some _ |- _ => rewrite H
      | H : last _ = Some _ |- _ => rewrite (nth_val_last id _ _ H)
      end
    | progress cbn [heap trace id concat is_string VStr default throw]
    | progress cbv [mret M_ret mbind M_bind] ].

(** The bare-string form: the content of the last message gets the hint. *)
Lemma hint_bare_string w m elems u props s :
  heap w !! m = Some (OArray elems) ->
  last elems = Some (VRef u) ->
  heap w !! u = Some (OObject props) ->
  assoc "content" props = Some (VStr s) ->
  append_json_hint (VRef m) w =
  (Normal BareString,
   {| heap := <[u := OObject (assign "content" (VStr (s +:+ JSON_HINT)) props)]> (heap w);
      trace := trace w |}).
Proof.
  intros Hm Hlast Hu Hcontent.
  cbv [append_json_hint array_length get_index get_field set_field load store
       mbind M_bind mret M_ret].
  heap_steps. reflexivity.
Qed.

(** The parts form: the text of the first part of the last message gets it. *)
Lemma hint_parts_sequence w m elems u props c t rest tprops s :
  heap w !! m = Some (OArray elems) ->
  last elems = Some (VRef u) ->
  heap w !! u = Some (OObject props) ->
  assoc "content" props = Some (VRef c) ->
  heap w !! c = Some (OArray (VRef t :: rest)) ->
  heap w !! t = Some (OObject tprops) ->
  assoc "text" tprops = Some (VStr s) ->
  append_json_hint (VRef m) w =
  (Normal PartsSequence,
   {| heap := <[t := OObject (assign "text" (VStr (s +:+ JSON_HINT)) tprops)]> (heap w);
      trace := trace w |}).
Proof.
  intros Hm Hlast Hu Hcontent Hc Ht Htext.
  cbv [append_json_hint array_length get_index get_field set_field load store
       is_array mbind M_bind mret M_ret].
  heap_steps. cbn [nth_val Z.ltb Z.compare].
  change ((VRef t :: rest) !! Z.to_nat 0) with (Some (VRef t)).
  heap_steps. reflexivity.
Qed.

(** ** C3 *)

(** A schema that is [false] (the JSON Schema that accepts nothing) is
    present, and line 52 takes it for no schema at all. *)
Lemma C3_counterexample :
  ~ C3_as_stated (answering (http_response 200 "" None) no_text)
                 (with_schema (plain_request (Some "https://x.test/v1"))
                              (JBool false)).
Proof.
  intros H. destruct H as (body & Hbody & Hformat & _).
  - by eexists.
  - done.
  - vm_compute in Hbody. injection Hbody as <-. discriminate.
Qed.

(** C3, amended. On the compatible path, when [jsonSchema] is truthy
    (present, and not [null], [false], [0], [NaN] or the empty string), the
    body posted has [response_format] of type json_object and the text of
    the prompt part of the user message is the prompt followed by the
    hint; lines 55-60 treat both forms of a message content, the bare
    string and the parts sequence. *)
Theorem C3_json_mode env req :
  (nonempty (baseUrl req) ->
   truthy (optional_any (jsonSchema req)) = true ->
   exists body,
     posted_bodies (run env req).2 = [body] /\
     member "response_format" body = Some json_object_mode /\
     last_user_text body = Some (JString (prompt req +:+ JSON_HINT))) /\
  (forall w m elems u props s,
     heap w !! m = Some (OArray elems) ->
     last elems = Some (VRef u) ->
     heap w !! u = Some (OObject props) ->
     assoc "content" props = Some (VStr s) ->
     append_json_hint (VRef m) w =
     (Normal BareString,
      {| heap := <[u := OObject (assign "content" (VStr (s +:+ JSON_HINT)) props)]>
                   (heap w);
         trace := trace w |})) /\
  (forall w m elems u props c t rest tprops s,
     heap w !! m = Some (OArray elems) ->
     last elems = Some (VRef u) ->
     heap w !! u = Some (OObject props) ->
     assoc "content" props = Some (VRef c) ->
     heap w !! c = Some (OArray (VRef t :: rest)) ->
     heap w !! t = Some (OObject tprops) ->
     assoc "text" tprops = Some (VStr s) ->
     append_json_hint (VRef m) w =
     (Normal PartsSequence,
      {| heap := <[t := OObject (assign "text" (VStr (s +:+ JSON_HINT)) tprops)]>
                   (heap w);
         trace := trace w |})).
Proof.
  split; [|split].
  - intros Hurl Hschema. exists (expected_body req).
    split; [by apply posted_expected|].
    unfold expected_body, last_user_text, user_parts, messages_of, expected_messages.
    rewrite Hschema.
    by destruct (systemInstruction req) as [[|? ?]|], (image req) as [[|? ?]|].
  - apply hint_bare_string.
  - apply hint_parts_sequence.
Qed.

(** A request with an object schema, and a heap whose only message has a
    bare string as its content. *)
Lemma C3_json_mode_witness :
  (exists body,
     posted_bodies
       (run (answering (http_response 200 "" None) no_text)
            (with_schema (plain_request (Some "https://x.test/v1")) (JObject []))).2
       = [body] /\
     member "response_format" body = Some json_object_mode /\
     last_user_text body = Some (JString ("hi" +:+ JSON_HINT))) /\
  append_json_hint (VRef 0)
    {| heap := [OArray [VRef 1]; OObject [("role", VStr "user"); ("content", VStr "hi")]];
       trace := [] |} =
  (Normal BareString,
   {| heap := [OArray [VRef 1];
               OObject [("role", VStr "user");
                        ("content", VStr ("hi" +:+ JSON_HINT))]];
      trace := [] |}).
Proof.
  pose proof (C3_json_mode
                (answering (http_response 200 "" None) no_text)
                (with_schema (plain_request (Some "https://x.test/v1")) (JObject [])))
    as (Hrun & Hbare & _).
  split.
  - apply Hrun; [by eexists|reflexivity].
  - apply (Hbare {| heap := [OArray [VRef 1];
                             OObject [("role", VStr "user"); ("content", VStr "hi")]];
                    trace := [] |}
                 0 [VRef 1] 1 [("role", VStr "user"); ("content", VStr "hi")] "hi");
      reflexivity.
Defined.

(** ** C7 *)

(** C7. With an image and no [mimeType], every MIME type that goes out is
    image/png: in the data URI of the image part on the compatible path, in
    the [mimeType] of the inline-data part on the native path.  That part is
    there when the image is not the empty string. *)
Theorem C7_default_mime env req img :
  image req = Some img ->
  mimeType req = None ->
  (nonempty (baseUrl req) ->
   exists body parts,
     posted_bodies (run env req).2 = [body] /\
     user_parts body = Some parts /\
     (forall url, url ∈ image_urls parts ->
        url = JString ("data:image/png;base64," +:+ img)) /\
     (img <> "" ->
        image_urls parts = [JString ("data:image/png;base64," +:+ img)])) /\
  (baseUrl req = None \/ baseUrl req = Some "" ->
   exists params parts,
     sdk_calls (run env req).2 = [(apiKey req, params)] /\
     parts_of params = Some parts /\
     (forall mime, mime ∈ inline_mime_types parts -> mime = JString "image/png") /\
     (img <> "" -> inline_mime_types parts = [JString "image/png"])).
Proof.
  intros Himg Hmime. split.
  - intros Hurl. exists (expected_body req).
    rewrite (posted_expected env req Hurl).
    unfold expected_body, user_parts, messages_of, expected_messages.
    rewrite Himg, Hmime.
    destruct (systemInstruction req) as [[|? ?]|], img as [|? ?];
      (eexists; split; [reflexivity|]; split; [reflexivity|]);
      cbn; split; try done; intros url Hin;
      try (by apply elem_of_nil in Hin); by apply list_elem_of_singleton in Hin.
  - intros Hurl. exists (expected_params req).
    rewrite (generated_expected env req Hurl).
    unfold expected_params, expected_parts. rewrite Himg, Hmime.
    destruct img as [|? ?];
      (eexists; split; [reflexivity|]; split; [reflexivity|]);
      cbn; split; try done; intros mime Hin;
      try (by apply elem_of_nil in Hin); by apply list_elem_of_singleton in Hin.
Qed.

(** The image AAAA without a MIME type, on either path. *)
Lemma C7_default_mime_witness :
  (exists body parts,
     posted_bodies
       (run (answering (http_response 200 "" None) no_text)
            (with_image (plain_request (Some "https://x.test/v1")) "AAAA")).2
       = [body] /\
     user_parts body = Some parts /\
     image_urls parts = [JString "data:image/png;base64,AAAA"]) /\
  (exists params parts,
     sdk_calls
       (run (answering (http_response 200 "" None) no_text)
            (with_image (plain_request None) "AAAA")).2
       = [("sk-test", params)] /\
     parts_of params = Some parts /\
     inline_mime_types parts = [JString "image/png"]).
Proof.
  split.
  - destruct (C7_default_mime
                (answering (http_response 200 "" None) no_text)
                (with_image (plain_request (Some "https://x.test/v1")) "AAAA")
                "AAAA" eq_refl eq_refl) as [HA _].
    destruct HA as (body & parts & Hbody & Hparts & _ & Hurls); [by eexists|].
    exists body, parts. split; [done|]. split; [done|]. by apply Hurls.
  - destruct (C7_default_mime
                (answering (http_response 200 "" None) no_text)
                (with_image (plain_request None) "AAAA")
                "AAAA" eq_refl eq_refl) as [_ HB].
    destruct HB as (params & parts & Hcalls & Hparts & _ & Hmimes); [by left|].
    exists params, parts. split; [done|]. split; [done|]. by apply Hmimes.
Defined.

(** ** C8 *)

(** An image that is the empty string is present, and no part is made of it. *)
Lemma C8_counterexample :
  ~ C8_as_stated (answering (http_response 200 "" None) no_text)
                 (with_image (plain_request None) "").
Proof.
  intros [H _]. destruct H as (params & Hcalls & Himg & _); [by left|].
  specialize (Himg "" eq_refl).
  vm_compute in Hcalls. injection Hcalls as <-. discriminate.
Qed.

(** C8, amended. On the native path the parts are the inline-data part and
    then the text part when the image is set and non-empty, and the text
    part alone when it is absent or the empty string; on the compatible path
    the parts of the user message are the text part and then the image part
    when the image is set and non-empty, and the text part alone otherwise. *)
Theorem C8_part_order env req :
  (baseUrl req = None \/ baseUrl req = Some "" ->
   exists params,
     sdk_calls (run env req).2 = [(apiKey req, params)] /\
     (forall img, image req = Some img -> img <> "" ->
        parts_of params =
        Some [inline_data_part (or_default (mimeType req) "image/png") img;
              text_part (prompt req)]) /\
     (image req = None \/ image req = Some "" ->
        parts_of params = Some [text_part (prompt req)])) /\
  (nonempty (baseUrl req) ->
   exists body t,
     posted_bodies (run env req).2 = [body] /\
     t = (if truthy (optional_any (jsonSchema req))
          then prompt req +:+ JSON_HINT else prompt req) /\
     (forall img, image req = Some img -> img <> "" ->
        user_parts body =
        Some [chat_text_part t;
              image_url_part ("data:" +:+ or_default (mimeType req) "image/png"
                                +:+ ";base64," +:+ img)]) /\
     (image req = None \/ image req = Some "" ->
        user_parts body = Some [chat_text_part t])).
Proof.
  split.
  - intros Hurl. exists (expected_params req).
    split; [by apply generated_expected|].
    unfold expected_params, expected_parts.
    split.
    + intros img -> Hne. by destruct img.
    + by intros [-> | ->].
  - intros Hurl. eexists (expected_body req), _.
    split; [by apply posted_expected|]. split; [reflexivity|].
    unfold expected_body, user_parts, messages_of, expected_messages.
    split.
    + intros img -> Hne.
      destruct img; [done|]. by destruct (systemInstruction req) as [[|? ?]|].
    + intros [-> | ->]; by destruct (systemInstruction req) as [[|? ?]|].
Qed.

(** The image AAAA on either path. *)
Lemma C8_part_order_witness :
  (exists params,
     sdk_calls
       (run (answering (http_response 200 "" None) no_text)
            (with_image (plain_request None) "AAAA")).2 = [("sk-test", params)] /\
     parts_of params =
     Some [inline_data_part "image/png" "AAAA"; text_part "hi"]) /\
  (exists body,
     posted_bodies
       (run (answering (http_response 200 "" None) no_text)
            (with_image (plain_request (Some "https://x.test/v1")) "AAAA")).2
       = [body] /\
     user_parts body =
     Some [chat_text_part "hi"; image_url_part "data:image/png;base64,AAAA"]).
Proof.
  split.
  - destruct (C8_part_order
                (answering (http_response 200 "" None) no_text)
                (with_image (plain_request None) "AAAA")) as [HB _].
    destruct HB as (params & Hcalls & Himg & _); [by left|].
    exists params. split; [done|]. by apply (Himg "AAAA").
  - destruct (C8_part_order
                (answering (http_response 200 "" None) no_text)
                (with_image (plain_request (Some "https://x.test/v1")) "AAAA"))
      as [_ HA].
    destruct HA as (body & t & Hbody & -> & Himg & _); [by eexists|].
    exists body. split; [done|]. by apply (Himg "AAAA").
Defined.

(** ** C9 *)

(** A system instruction that is the empty string is present, and the
    configuration value does not hold it. *)
Lemma C9_counterexample :
  ~ C9_as_stated (answering (http_response 200 "" None) no_text)
                 (with_system (plain_request None) "").
Proof.
  intros H.
  destruct H as (params & config & parts & Hcalls & Hconfig & _ & [_ Hsys] & _);
    [by left|].
  vm_compute in Hcalls. injection Hcalls as <-.
  vm_compute in Hconfig. injection Hconfig as <-.
  destruct Hsys as [x Hx]; [by eexists|]. discriminate.
Qed.

(** C9, amended. On the native path the configuration value holds
    [systemInstruction] exactly when the request's is set and non-empty;
    when [jsonSchema] is truthy it holds the response MIME type
    application/json and the schema itself; and the text part carries the
    prompt as it is. *)
Theorem C9_native_config env req :
  baseUrl req = None \/ baseUrl req = Some "" ->
  exists params config parts,
    sdk_calls (run env req).2 = [(apiKey req, params)] /\
    config_of params = Some config /\
    parts_of params = Some parts /\
    (forall s, systemInstruction req = Some s -> s <> "" ->
       member "systemInstruction" config = Some (JString s)) /\
    (systemInstruction req = None \/ systemInstruction req = Some "" ->
       member "systemInstruction" config = None) /\
    (forall schema, jsonSchema req = Some schema ->
       truthy (VJson schema) = true ->
       member "responseMimeType" config = Some (JString "application/json") /\
       member "responseSchema" config = Some schema) /\
    last parts = Some (text_part (prompt req)).
Proof.
  intros Hurl.
  exists (expected_params req), (expected_config req), (expected_parts req).
  split; [by apply generated_expected|].
  split; [done|]. split; [done|].
  unfold expected_config, expected_parts.
  split; [|split; [|split]].
  - intros s -> Hne. by destruct s.
  - intros [-> | ->]; cbn [for_nonempty app member];
      by destruct (jsonSchema req) as [schema|]; [destruct (truthy (VJson schema))|].
  - intros schema -> Htruthy. rewrite Htruthy.
    by destruct (systemInstruction req) as [[|? ?]|].
  - by destruct (image req) as [[|? ?]|].
Qed.

(** A system instruction and an object schema. *)
Lemma C9_native_config_witness :
  exists params config parts,
    sdk_calls
      (run (answering (http_response 200 "" None) no_text)
           (with_schema (with_system (plain_request None) "be brief") (JObject []))).2
      = [("sk-test", params)] /\
    config_of params = Some config /\
    parts_of params = Some parts /\
    member "systemInstruction" config = Some (JString "be brief") /\
    member "responseMimeType" config = Some (JString "application/json") /\
    member "responseSchema" config = Some (JObject []) /\
    last parts = Some (text_part "hi").
Proof.
  destruct (C9_native_config
              (answering (http_response 200 "" None) no_text)
              (with_schema (with_system (plain_request None) "be brief") (JObject []))
              (or_introl eq_refl))
    as (params & config & parts & Hcalls & Hconfig & Hparts & Hsys & _ & Hschema & Htext).
  exists params, config, parts.
  destruct (Hschema (JObject []) eq_refl eq_refl) as [Hmime Hresp].
  repeat split; try done. by apply Hsys.
Defined.

(** ** C10 *)

(** C10. The content of the user message, as lines 33-43 build it, is an
    array whose first element is the text part with the prompt; so lines
    56-60 never take the bare-string arm, and take the parts arm whenever
    they run.  The user message is the last one, and the system message of
    the body posted still has the system instruction as its content. *)
Theorem C10_user_content req :
  (exists m w rest,
     build_messages req (or_default (mimeType req) "image/png") initial
       = (Normal (VRef m), w) /\
     read_graph (S (length (heap w))) (heap w) (VRef m) =
     Some (Some (JArray
       (for_nonempty (systemInstruction req)
          (fun s => chat_message "system" (JString s))
        ++ [chat_message "user"
              (JArray (chat_text_part (prompt req) :: rest))])))) /\
  (exists body arm w,
     prepare req = (Normal (body, arm), w) /\
     arm <> Some BareString /\
     (truthy (optional_any (jsonSchema req)) = true -> arm = Some PartsSequence)) /\
  (forall env, nonempty (baseUrl req) ->
     exists body user,
       posted_bodies (run env req).2 = [body] /\
       messages_of body =
       Some (for_nonempty (systemInstruction req)
               (fun s => chat_message "system" (JString s)) ++ [user])%list /\
       member "role" user = Some (JString "user")).
Proof.
  split; [|split].
  - destruct req as [key mdl url prm sys img mime schema].
    destruct sys as [[|? ?]|], img as [[|? ?]|]; do 3 eexists; split; solve_js.
  - destruct req as [key mdl url prm sys img mime schema].
    request_cases sys img schema; do 3 eexists;
      (split; [solve_js|split; [discriminate|]]);
      first [reflexivity | discriminate | cbn; congruence].
  - intros env Hurl. eexists (expected_body req), _.
    split; [by apply posted_expected|].
    split; reflexivity.
Qed.

(** * Beyond the claims *)

(** ** Failures of the compatible mode (lines 70-93) *)

(** X1. A call on the compatible path either returns, and then nothing was
    logged, or throws an [Error] whose message is [AI Request Failed: ]
    followed by the message of the original error, which was logged once. *)
Theorem compatible_failure_discipline env req :
  nonempty (baseUrl req) ->
  (exists v,
     (run env req).1 = Normal v /\ console_errors (run env req).2 = []) \/
  (exists e,
     (run env req).1 =
       Throw (Error ("AI Request Failed: " +:+ message_of env e)) /\
     console_errors (run env req).2 = [("Compatible API Error:", e)]).
Proof.
  intros (url & Hurl & Hne).
  destruct (run_compatible_eq env req url Hurl Hne) as (payload & h & _ & ->).
  cbv zeta. destruct (settle _) as [e|v]; [right|left]; by eexists.
Qed.

Lemma compatible_failure_discipline_witness :
  (exists v,
     (run (rejecting (Error "Failed to fetch"))
          (plain_request (Some "https://x.test/v1"))).1 = Normal v /\
     console_errors
       (run (rejecting (Error "Failed to fetch"))
            (plain_request (Some "https://x.test/v1"))).2 = []) \/
  (exists e,
     (run (rejecting (Error "Failed to fetch"))
          (plain_request (Some "https://x.test/v1"))).1 =
       Throw (Error ("AI Request Failed: "
                       +:+ message_of (rejecting (Error "Failed to fetch")) e)) /\
     console_errors
       (run (rejecting (Error "Failed to fetch"))
            (plain_request (Some "https://x.test/v1"))).2
       = [("Compatible API Error:", e)]).
Proof.
  apply (compatible_failure_discipline
           (rejecting (Error "Failed to fetch"))
           (plain_request (Some "https://x.test/v1"))).
  by eexists.
Defined.

(** X2. When [fetch] itself rejects, the call fails with the wrapped
    message, the rejection is logged, and no second request is made. *)
Theorem fetch_rejection_wrapped env req url e :
  baseUrl req = Some url -> url <> "" ->
  (forall init, fetch env (make_endpoint url) init = inl e) ->
  (run env req).1 = Throw (Error ("AI Request Failed: " +:+ message_of env e)) /\
  console_errors (run env req).2 = [("Compatible API Error:", e)] /\
  (fetch_calls (run env req).2).*1 = [make_endpoint url] /\
  sdk_calls (run env req).2 = [].
Proof.
  intros Hurl Hne Hfetch.
  destruct (run_compatible_eq env req url Hurl Hne) as (payload & h & _ & ->).
  cbv zeta. by rewrite Hfetch.
Qed.

Lemma fetch_rejection_wrapped_witness :
  (run (rejecting (Error "Failed to fetch"))
       (plain_request (Some "https://x.test/v1"))).1 =
  Throw (Error "AI Request Failed: Failed to fetch").
Proof.
  refine (proj1 (fetch_rejection_wrapped
                   (rejecting (Error "Failed to fetch"))
                   (plain_request (Some "https://x.test/v1"))
                   "https://x.test/v1" (Error "Failed to fetch") _ _ _));
    first [reflexivity | discriminate].
Defined.

(** X3. A success status whose body does not parse: the parser's error is
    wrapped like any other. *)
Theorem json_rejection_wrapped env req url response e :
  baseUrl req = Some url -> url <> "" ->
  (forall init, fetch env (make_endpoint url) init = inr response) ->
  ok response = true ->
  json response = inl e ->
  (run env req).1 = Throw (Error ("AI Request Failed: " +:+ message_of env e)) /\
  console_errors (run env req).2 = [("Compatible API Error:", e)].
Proof.
  intros Hurl Hne Hfetch Hok Hjson.
  destruct (run_compatible_eq env req url Hurl Hne) as (payload & h & _ & ->).
  cbv zeta. rewrite Hfetch. unfold settle. by rewrite Hok, Hjson.
Qed.

Lemma json_rejection_wrapped_witness :
  (run (answering (http_response 200 "<html>" None) no_text)
       (plain_request (Some "https://x.test/v1"))).1 =
  Throw (Error "AI Request Failed: Unexpected token in JSON").
Proof.
  refine (proj1 (json_rejection_wrapped
                   (answering (http_response 200 "<html>" None) no_text)
                   (plain_request (Some "https://x.test/v1"))
                   "https://x.test/v1" (http_response 200 "<html>" None)
                   (Error "Unexpected token in JSON") _ _ _ _ _));
    first [reflexivity | discriminate].
Defined.

(** X4. A non-success status whose body cannot be read as text: the error
    of the reader is what gets wrapped, and the status code is not in the
    message. *)
Theorem text_rejection_wrapped env req url response e :
  baseUrl req = Some url -> url <> "" ->
  (forall init, fetch env (make_endpoint url) init = inr response) ->
  ok response = false ->
  text response = inl e ->
  (run env req).1 = Throw (Error ("AI Request Failed: " +:+ message_of env e)) /\
  console_errors (run env req).2 = [("Compatible API Error:", e)].
Proof.
  intros Hurl Hne Hfetch Hok Htext.
  destruct (run_compatible_eq env req url Hurl Hne) as (payload & h & _ & ->).
  cbv zeta. rewrite Hfetch. unfold settle. by rewrite Hok, Htext.
Qed.

Lemma text_rejection_wrapped_witness :
  (run (answering (unreadable 502 (Error "body stream already read")) no_text)
       (plain_request (Some "https://x.test/v1"))).1 =
  Throw (Error "AI Request Failed: body stream already read").
Proof.
  refine (proj1 (text_rejection_wrapped
                   (answering (unreadable 502 (Error "body stream already read")) no_text)
                   (plain_request (Some "https://x.test/v1"))
                   "https://x.test/v1"
                   (unreadable 502 (Error "body stream already read"))
                   (Error "body stream already read") _ _ _ _ _));
    first [reflexivity | discriminate].
Defined.

(** ** The native mode (lines 99-122) *)

(** X5. On the native path the outcome is the answer of the one SDK call:
    its text as a string, or its own error, neither wrapped nor logged; no
    POST is made. *)
Theorem native_outcome env req :
  baseUrl req = None \/ baseUrl req = Some "" ->
  exists params,
    sdk_calls (run env req).2 = [(apiKey req, params)] /\
    (run env req).1 =
      match sdk_generateContent env (apiKey req) params with
      | inl e => Throw e
      | inr response => Normal (VStr (default "" (response_text response)))
      end /\
    console_errors (run env req).2 = [] /\
    fetch_calls (run env req).2 = [].
Proof.
  intros Hurl.
  destruct (run_native_eq env req Hurl) as (params & h & _ & ->).
  exists params. split; [done|]. split; [|done]. cbn [fst].
  destruct (sdk_generateContent env (apiKey req) params) as [e|response]; [done|].
  by destruct (response_text response) as [[|? ?]|].
Qed.

Lemma native_outcome_witness :
  exists params,
    sdk_calls (run (rejecting (Error "API key not valid")) (plain_request None)).2
      = [("sk-test", params)] /\
    (run (rejecting (Error "API key not valid")) (plain_request None)).1
      = Throw (Error "API key not valid") /\
    console_errors (run (rejecting (Error "API key not valid")) (plain_request None)).2
      = [] /\
    fetch_calls (run (rejecting (Error "API key not valid")) (plain_request None)).2
      = [].
Proof.
  apply (native_outcome (rejecting (Error "API key not valid")) (plain_request None)).
  by left.
Defined.

(** ** What the compatible mode returns (lines 85-89) *)

(** X6. On a successful answer with a document that is not [null], a truthy
    value at choices[0].message.content is returned as it is, string or not;
    a falsy one ([null], [false], [0], the empty string) is the
    no-content failure. *)
Theorem content_returned_as_is env req url response data c :
  baseUrl req = Some url -> url <> "" ->
  (forall init, fetch env (make_endpoint url) init = inr response) ->
  ok response = true ->
  json response = inr data ->
  data <> JNull ->
  content_at data = Some c ->
  (run env req).1 =
  if truthy (VJson c) then Normal (VJson c)
  else Throw (Error "AI Request Failed: No content in response").
Proof.
  intros Hurl Hne Hfetch Hok Hjson Hnull Hc.
  rewrite (run_answered env req url response) by done.
  unfold settle. rewrite Hok, Hjson. cbn [negb].
  destruct data; try done; rewrite Hc; cbn [optional_any];
    by destruct (truthy (VJson c)).
Qed.

(** An object as content comes back as that object; [null] as content is
    the failure. *)
Lemma content_returned_as_is_witness :
  (run (answering (http_response 200 ""
                     (Some (completion (JObject [("answer", JString "yes")]))))
                  no_text)
       (plain_request (Some "https://x.test/v1"))).1
  = Normal (VJson (JObject [("answer", JString "yes")])) /\
  (run (answering (http_response 200 "" (Some (completion JNull))) no_text)
       (plain_request (Some "https://x.test/v1"))).1
  = Throw (Error "AI Request Failed: No content in response").
Proof.
  split.
  - refine (content_returned_as_is
              (answering (http_response 200 ""
                 (Some (completion (JObject [("answer", JString "yes")])))) no_text)
              (plain_request (Some "https://x.test/v1")) "https://x.test/v1"
              (http_response 200 ""
                 (Some (completion (JObject [("answer", JString "yes")]))))
              (completion (JObject [("answer", JString "yes")]))
              (JObject [("answer", JString "yes")]) _ _ _ _ _ _ _);
      first [reflexivity | discriminate].
  - refine (content_returned_as_is
              (answering (http_response 200 "" (Some (completion JNull))) no_text)
              (plain_request (Some "https://x.test/v1")) "https://x.test/v1"
              (http_response 200 "" (Some (completion JNull)))
              (completion JNull) JNull _ _ _ _ _ _ _);
      first [reflexivity | discriminate].
Defined.

(** ** What the compatible mode sends (lines 45-78) *)

(** X7. The one request of the compatible path is a POST with exactly two
    headers: the JSON content type and the key as a bearer token. *)
Theorem post_request_line env req url :
  baseUrl req = Some url -> url <> "" ->
  exists init,
    fetch_calls (run env req).2 = [(make_endpoint url, init)] /\
    method init = "POST" /\
    headers init = [("Content-Type", "application/json");
                    ("Authorization", "Bearer " +:+ apiKey req)].
Proof.
  intros Hurl Hne.
  destruct (run_compatible_eq env req url Hurl Hne) as (payload & h & _ & ->).
  eexists. cbv zeta. split; [by destruct (settle _)|done].
Qed.

Lemma post_request_line_witness :
  exists init,
    fetch_calls
      (run (answering (http_response 200 "" None) no_text)
           (plain_request (Some "https://x.test/v1"))).2
      = [("https://x.test/v1/chat/completions", init)] /\
    method init = "POST" /\
    headers init = [("Content-Type", "application/json");
                    ("Authorization", "Bearer sk-test")].
Proof.
  apply (post_request_line
           (answering (http_response 200 "" None) no_text)
           (plain_request (Some "https://x.test/v1")) "https://x.test/v1");
    first [reflexivity | discriminate].
Defined.

(** X8. The body always names the model and turns streaming off; when
    [jsonSchema] is absent or falsy it has no [response_format] and the
    prompt goes out as it is. *)
Theorem plain_body env req :
  nonempty (baseUrl req) ->
  exists body,
    posted_bodies (run env req).2 = [body] /\
    member "model" body = Some (JString (model req)) /\
    member "stream" body = Some (JBool false) /\
    (truthy (optional_any (jsonSchema req)) = false ->
     member "response_format" body = None /\
     last_user_text body = Some (JString (prompt req))).
Proof.
  intros Hurl. exists (expected_body req).
  split; [by apply posted_expected|]. split; [done|]. split; [done|].
  intros Hschema.
  unfold expected_body, last_user_text, user_parts, messages_of, expected_messages.
  rewrite Hschema.
  by destruct (systemInstruction req) as [[|? ?]|], (image req) as [[|? ?]|].
Qed.

Lemma plain_body_witness :
  exists body,
    posted_bodies
      (run (answering (http_response 200 "" None) no_text)
           (with_schema (plain_request (Some "https://x.test/v1")) JNull)).2 = [body] /\
    member "model" body = Some (JString "m") /\
    member "stream" body = Some (JBool false) /\
    member "response_format" body = None /\
    last_user_text body = Some (JString "hi").
Proof.
  destruct (plain_body
              (answering (http_response 200 "" None) no_text)
              (with_schema (plain_request (Some "https://x.test/v1")) JNull))
    as (body & Hbody & Hmodel & Hstream & Hplain); [by eexists|].
  exists body. destruct (Hplain eq_refl) as [Hformat Htext]. done.
Defined.

(** X9. The compatible path never transmits the schema: two requests that
    differ only in their (truthy) schemas post the same body to the same
    URL. *)
Theorem schema_not_transmitted env req schema1 schema2 :
  nonempty (baseUrl req) ->
  truthy (VJson schema1) = true ->
  truthy (VJson schema2) = true ->
  posted_bodies (run env (with_schema req schema1)).2 =
  posted_bodies (run env (with_schema req schema2)).2 /\
  (fetch_calls (run env (with_schema req schema1)).2).*1 =
  (fetch_calls (run env (with_schema req schema2)).2).*1.
Proof.
  intros Hurl H1 H2. pose proof Hurl as (url & Hu & Hne). split.
  - rewrite !posted_expected by done.
    unfold expected_body, expected_messages. cbn [jsonSchema with_schema optional_any].
    by rewrite H1, H2.
  - by rewrite !(endpoint_posted _ _ url).
Qed.

Lemma schema_not_transmitted_witness :
  posted_bodies
    (run (answering (http_response 200 "" None) no_text)
         (with_schema (plain_request (Some "https://x.test/v1"))
                      (JObject [("type", JString "object")]))).2 =
  posted_bodies
    (run (answering (http_response 200 "" None) no_text)
         (with_schema (plain_request (Some "https://x.test/v1")) (JBool true))).2.
Proof.
  refine (proj1 (schema_not_transmitted
                   (answering (http_response 200 "" None) no_text)
                   (plain_request (Some "https://x.test/v1"))
                   (JObject [("type", JString "object")]) (JBool true) _ _ _));
    [by eexists | reflexivity | reflexivity].
Defined.

(** X10. The key goes into the Authorization header and the SDK client
    only: the URL and the body of the POST, and the argument of the SDK
    call, are the same whatever the key. *)
Theorem key_not_in_payload env req key :
  (nonempty (baseUrl req) ->
   posted_bodies (run env (with_key req key)).2 = posted_bodies (run env req).2 /\
   (fetch_calls (run env (with_key req key)).2).*1 =
   (fetch_calls (run env req).2).*1) /\
  (baseUrl req = None \/ baseUrl req = Some "" ->
   (sdk_calls (run env (with_key req key)).2).*2 = (sdk_calls (run env req).2).*2 /\
   (sdk_calls (run env (with_key req key)).2).*1 = [key]).
Proof.
  split.
  - intros Hurl. pose proof Hurl as (url & Hu & Hne). split.
    + by rewrite !posted_expected.
    + by rewrite !(endpoint_posted _ _ url).
  - intros Hurl. by rewrite !generated_expected.
Qed.

(** ** The endpoint (lines 65-68) *)

Lemma slashes_snoc n : slashes (S n) = slashes n +:+ "/".
Proof. induction n as [|n IH]; [done|]. cbn [slashes] in *. by rewrite append_cons, <- IH. Qed.

Lemma slashes_add n k : slashes n +:+ slashes k = slashes (n + k).
Proof. induction n as [|n IH]; [done|]. cbn [slashes Nat.add]. by rewrite append_cons, IH. Qed.

Lemma all_slashes_append a b :
  all_slashes (a +:+ b) = all_slashes a && all_slashes b.
Proof.
  induction a as [|c a IH]; [done|].
  rewrite append_cons. cbn [all_slashes]. by rewrite IH, andb_assoc.
Qed.

Lemma all_slashes_ends s : s <> "" -> all_slashes s = true -> ends_with s "/".
Proof.
  intros Hne Hall. apply all_slashes_spec in Hall. rewrite Hall.
  destruct (String.length s) as [|n] eqn:E; [by destruct s|].
  exists (slashes n). apply slashes_snoc.
Qed.

Lemma ends_with_cons c s x : ends_with s x -> ends_with (String c s) x.
Proof. intros [p ->]. by exists (String c p). Qed.

(** What is left of [t] followed by slashes is [t], when [t] has no slash
    at its end. *)
Lemma strip_trailing_slashes_unique t n :
  ~ ends_with t "/" -> strip_trailing_slashes (t +:+ slashes n) = t.
Proof.
  induction t as [|c t IH]; intros Hend.
  - rewrite append_nil. destruct n as [|n]; [done|].
    cbn. by rewrite all_slashes_slashes.
  - rewrite append_cons. cbn [strip_trailing_slashes].
    destruct (Ascii.eqb c "/" && all_slashes (t +:+ slashes n)) eqn:Hrun.
    + exfalso. apply Hend. apply andb_true_iff in Hrun as [Hc Hall].
      rewrite all_slashes_append in Hall. apply andb_true_iff in Hall as [Hall _].
      apply all_slashes_ends; [done|]. cbn. by rewrite Hc, Hall.
    + f_equal. apply IH. intros H. apply Hend. by apply ends_with_cons.
Qed.

Lemma append_snoc_inj p q c d :
  p +:+ String c "" = q +:+ String d "" -> p = q /\ c = d.
Proof.
  revert q. induction p as [|x p IH]; intros [|y q] H;
    rewrite ?append_nil, ?append_cons in H.
  - by injection H as ->.
  - injection H as _ H. by destruct q.
  - injection H as _ H. by destruct p.
  - injection H as -> H. by destruct (IH q H) as [-> ->].
Qed.

Lemma make_endpoint_suffix url : ends_with (make_endpoint url) CHAT_COMPLETIONS.
Proof.
  unfold make_endpoint.
  destruct (endsWith (strip_trailing_slashes url) CHAT_COMPLETIONS) eqn:E.
  - by apply endsWith_spec.
  - by eexists.
Qed.

Lemma make_endpoint_no_slash url : ~ ends_with (make_endpoint url) "/".
Proof.
  destruct (make_endpoint_suffix url) as [p Hp]. intros [q Hq].
  rewrite Hp in Hq.
  change CHAT_COMPLETIONS with ("/chat/completion" +:+ "s") in Hq.
  rewrite <- append_assoc in Hq.
  by destruct (append_snoc_inj _ _ _ _ Hq) as [_ Hc].
Qed.

Lemma make_endpoint_fixed url : make_endpoint (make_endpoint url) = make_endpoint url.
Proof.
  pose proof (strip_trailing_slashes_unique (make_endpoint url) 0
                (make_endpoint_no_slash url)) as Hstrip.
  rewrite append_empty_r in Hstrip.
  unfold make_endpoint at 1. rewrite Hstrip.
  by rewrite (proj2 (endsWith_spec _ _) (make_endpoint_suffix url)).
Qed.

(** X11. The URL posted to ends with /chat/completions, has no slash after
    it, and is a fixed point: given back as [baseUrl] it is used as it is. *)
Theorem endpoint_stable env req url :
  baseUrl req = Some url -> url <> "" ->
  exists endpoint,
    (fetch_calls (run env req).2).*1 = [endpoint] /\
    ends_with endpoint CHAT_COMPLETIONS /\
    ~ ends_with endpoint "/" /\
    make_endpoint endpoint = endpoint.
Proof.
  intros Hurl Hne. exists (make_endpoint url).
  split; [by apply endpoint_posted|].
  split; [apply make_endpoint_suffix|].
  split; [apply make_endpoint_no_slash|apply make_endpoint_fixed].
Qed.

Lemma endpoint_stable_witness :
  exists endpoint,
    (fetch_calls
       (run (answering (http_response 200 "" None) no_text)
            (plain_request (Some "https://x.test/v1//"))).2).*1 = [endpoint] /\
    ends_with endpoint CHAT_COMPLETIONS /\
    ~ ends_with endpoint "/" /\
    make_endpoint endpoint = endpoint.
Proof.
  apply (endpoint_stable
           (answering (http_response 200 "" None) no_text)
           (plain_request (Some "https://x.test/v1//")) "https://x.test/v1//");
    first [reflexivity | discriminate].
Defined.

(** X12. Slashes at the end of [baseUrl] make no difference to the
    endpoint, however many there are. *)
Theorem endpoint_ignores_trailing_slashes url n :
  make_endpoint (url +:+ slashes n) = make_endpoint url.
Proof.
  destruct (strip_trailing_slashes_spec url) as (k & Heq & Hend).
  assert (strip_trailing_slashes (url +:+ slashes n) = strip_trailing_slashes url)
    as Hstrip.
  { transitivity
      (strip_trailing_slashes (strip_trailing_slashes url +:+ slashes (k + n))).
    - by rewrite <- slashes_add, <- append_assoc, <- Heq.
    - by apply strip_trailing_slashes_unique. }
  unfold make_endpoint. by rewrite Hstrip.
Qed.

(** X13. A [baseUrl] made of slashes only is truthy, so the compatible path
    is taken, and the URL posted to is the bare /chat/completions. *)
Theorem slashes_only_base env req n :
  baseUrl req = Some (slashes (S n)) ->
  (fetch_calls (run env req).2).*1 = ["/chat/completions"] /\
  sdk_calls (run env req).2 = [].
Proof.
  intros Hurl.
  assert (slashes (S n) <> "") as Hne by done.
  split.
  - rewrite (endpoint_posted env req _ Hurl Hne).
    by rewrite <- (append_nil (slashes (S n))), endpoint_ignores_trailing_slashes.
  - destruct (run_compatible_eq env req _ Hurl Hne) as (payload & h & _ & ->).
    cbv zeta. by destruct (settle _).
Qed.

Lemma slashes_only_base_witness :
  (fetch_calls
     (run (answering (http_response 200 "" None) no_text)
          (plain_request (Some "//"))).2).*1 = ["/chat/completions"] /\
  sdk_calls
    (run (answering (http_response 200 "" None) no_text)
         (plain_request (Some "//"))).2 = [].
Proof.
  apply (slashes_only_base
           (answering (http_response 200 "" None) no_text)
           (plain_request (Some "//")) 1).
  reflexivity.
Defined.

(** ** The MIME type (line 19) *)

(** X14. A [mimeType] that is set and non-empty is the one that goes out,
    in the data URI on the compatible path and in the inline-data part on
    the native path; one that is the empty string gives way to image/png. *)
Theorem explicit_mime env req img mime :
  image req = Some img -> img <> "" ->
  mimeType req = Some mime ->
  let used := if String.eqb mime "" then "image/png" else mime in
  (nonempty (baseUrl req) ->
   exists body parts,
     posted_bodies (run env req).2 = [body] /\
     user_parts body = Some parts /\
     image_urls parts = [JString ("data:" +:+ used +:+ ";base64," +:+ img)]) /\
  (baseUrl req = None \/ baseUrl req = Some "" ->
   exists params parts,
     sdk_calls (run env req).2 = [(apiKey req, params)] /\
     parts_of params = Some parts /\
     inline_mime_types parts = [JString used]).
Proof.
  intros Himg Hne Hmime used. split.
  - intros Hurl. exists (expected_body req).
    rewrite (posted_expected env req Hurl).
    unfold expected_body, user_parts, messages_of, expected_messages.
    rewrite Himg, Hmime. subst used.
    destruct img as [|? ?]; [done|].
    by destruct (systemInstruction req) as [[|? ?]|], mime as [|? ?]; eexists.
  - intros Hurl. exists (expected_params req).
    rewrite (generated_expected env req Hurl).
    unfold expected_params, expected_parts. rewrite Himg, Hmime. subst used.
    destruct img as [|? ?]; [done|].
    by destruct mime as [|? ?]; eexists.
Qed.

Lemma explicit_mime_witness :
  (exists body parts,
     posted_bodies
       (run (answering (http_response 200 "" None) no_text)
            (with_mime (with_image (plain_request (Some "https://x.test/v1")) "AAAA")
                       "image/jpeg")).2 = [body] /\
     user_parts body = Some parts /\
     image_urls parts = [JString "data:image/jpeg;base64,AAAA"]) /\
  (exists params parts,
     sdk_calls
       (run (answering (http_response 200 "" None) no_text)
            (with_mime (with_image (plain_request None) "AAAA") "")).2
       = [("sk-test", params)] /\
     parts_of params = Some parts /\
     inline_mime_types parts = [JString "image/png"]).
Proof.
  split.
  - refine (proj1 (explicit_mime
              (answering (http_response 200 "" None) no_text)
              (with_mime (with_image (plain_request (Some "https://x.test/v1")) "AAAA")
                         "image/jpeg")
              "AAAA" "image/jpeg" _ _ _) _);
      first [reflexivity | discriminate | by eexists].
  - refine (proj2 (explicit_mime
              (answering (http_response 200 "" None) no_text)
              (with_mime (with_image (plain_request None) "AAAA") "")
              "AAAA" "" _ _ _) _);
      first [reflexivity | discriminate | by left].
Defined.

(** ** Lines 55-60 at their edges *)

(** X15. Lines 55-60 on heaps that [generateContent] itself never builds:
    with no message at all, reading [content] of the missing last message is
    a TypeError and nothing is written; a last message without a [content]
    is left alone; and a first part without a [text] gets the text
    [undefined] followed by the hint. *)
Theorem hint_edges w m :
  (heap w !! m = Some (OArray []) ->
   append_json_hint (VRef m) w =
   (Throw (EngineTypeError (ReadOfNullish VUndefined "content")), w)) /\
  (forall elems u props,
     heap w !! m = Some (OArray elems) ->
     last elems = Some (VRef u) ->
     heap w !! u = Some (OObject props) ->
     assoc "content" props = None ->
     append_json_hint (VRef m) w = (Normal NeitherForm, w)) /\
  (forall elems u props c t rest tprops,
     heap w !! m = Some (OArray elems) ->
     last elems = Some (VRef u) ->
     heap w !! u = Some (OObject props) ->
     assoc "content" props = Some (VRef c) ->
     heap w !! c = Some (OArray (VRef t :: rest)) ->
     heap w !! t = Some (OObject tprops) ->
     assoc "text" tprops = None ->
     append_json_hint (VRef m) w =
     (Normal PartsSequence,
      {| heap := <[t := OObject (tprops ++ [("text", VStr ("undefined" +:+ JSON_HINT))])]>
                   (heap w);
         trace := trace w |})).
Proof.
  split; [|split].
  - intros Hm.
    cbv [append_json_hint array_length get_index get_field load
         mbind M_bind mret M_ret].
    rewrite Hm. cbn. by rewrite Hm.
  - intros elems u props Hm Hlast Hu Hcontent.
    cbv [append_json_hint array_length get_index get_field set_field load store
         is_array mbind M_bind mret M_ret].
    heap_steps. by rewrite Hcontent.
  - intros elems u props c t rest tprops Hm Hlast Hu Hcontent Hc Ht Htext.
    assert (assign "text" (VStr ("undefined" +:+ JSON_HINT)) tprops
            = (tprops ++ [("text", VStr ("undefined" +:+ JSON_HINT))])%list) as <-.
    { clear Ht. induction tprops as [|[k v] tprops IH]; [done|].
      cbn [assoc assign app] in *.
      destruct (String.eqb "text" k); [done|]. by rewrite IH. }
    cbv [append_json_hint array_length get_index get_field set_field load store
         is_array mbind M_bind mret M_ret].
    heap_steps. cbn [nth_val Z.ltb Z.compare].
    change ((VRef t :: rest) !! Z.to_nat 0) with (Some (VRef t)).
    heap_steps. rewrite Htext. heap_steps. reflexivity.
Qed.

(** ** A document that is [null] (line 86) *)

(** X16. When the answer parses to [null], the first access of line 86 is
    the one that throws: the call fails with the engine's TypeError text,
    wrapped and logged like any other error, not with the no-content
    message. *)
Theorem null_document env req url response :
  baseUrl req = Some url -> url <> "" ->
  (forall init, fetch env (make_endpoint url) init = inr response) ->
  ok response = true ->
  json response = inr JNull ->
  (run env req).1 =
    Throw (Error ("AI Request Failed: "
                    +:+ type_error_message env (ReadOfNullish (VJson JNull) "choices"))) /\
  console_errors (run env req).2 =
    [("Compatible API Error:",
      EngineTypeError (ReadOfNullish (VJson JNull) "choices"))].
Proof.
  intros Hurl Hne Hfetch Hok Hjson.
  destruct (run_compatible_eq env req url Hurl Hne) as (payload & h & _ & ->).
  cbv zeta. rewrite Hfetch. unfold settle. by rewrite Hok, Hjson.
Qed.

Lemma null_document_witness :
  (run (answering (http_response 200 "null" (Some JNull)) no_text)
       (plain_request (Some "https://x.test/v1"))).1 =
  Throw (Error
    "AI Request Failed: Cannot read properties of null (reading 'choices')").
Proof.
  refine (proj1 (null_document
                   (answering (http_response 200 "null" (Some JNull)) no_text)
                   (plain_request (Some "https://x.test/v1"))
                   "https://x.test/v1"
                   (http_response 200 "null" (Some JNull)) _ _ _ _ _));
    first [reflexivity | discriminate].
Defined.
